(** * Posterr: the Jellyfin media-server adapter

    A shallow embedding of [src/classes/mediaservers/jellyfin.js] and the
    properties of its card mappers and of its two pipelines,
    [GetNowScreening] and [GetOnDemand].

    The adapter is JavaScript: every value it touches is dynamically typed,
    so the embedding starts from a universe of JavaScript values with the
    language's own conversions (ToBoolean, ToNumber, ToString), property
    access that raises on [null] and [undefined], and exceptions.

    Idealisations, fixed here once:
    - a finite JavaScript number is an exact rational; rounding of binary64
      arithmetic, overflow to infinity and the negative zero are not
      modelled.  [NaN] and the two infinities are values of their own, with
      the IEEE rules for division and product;
    - a string is the sequence of bytes of its (generalised) UTF-8 encoding;
      a lone surrogate is the three-byte sequence [ED A0..BF xx];
    - objects are association lists in insertion order, the first binding of
      a key being the property; the names read by the adapter are not
      properties of any built-in prototype. *)

From Stdlib Require Import ZArith QArith Qround List String Ascii Bool Lia.
From Stdlib Require Import DecimalString.
Import ListNotations.

Open Scope list_scope.
Open Scope string_scope.

(* ================================================================= *)
(** ** Numbers *)

Inductive number : Type :=
| NaN
| PInf
| NInf
| Fin (q : Q).

Definition num_of_Z (z : Z) : number := Fin (inject_Z z).

Definition Qis_zero (q : Q) : bool := Qeq_bool q 0.
Definition Qis_neg (q : Q) : bool := (Qnum q <? 0)%Z.

Definition is_NaN (n : number) : bool :=
  match n with NaN => true | _ => false end.

(** [Number.prototype] truthiness: [0] and [NaN] are the falsy numbers. *)
Definition num_truthy (n : number) : bool :=
  match n with
  | NaN => false
  | Fin q => negb (Qis_zero q)
  | PInf | NInf => true
  end.

(** [a / b] on numbers. *)
Definition num_div (a b : number) : number :=
  match a, b with
  | NaN, _ | _, NaN => NaN
  | (PInf | NInf), (PInf | NInf) => NaN
  | PInf, Fin q => if Qis_neg q then NInf else PInf
  | NInf, Fin q => if Qis_neg q then PInf else NInf
  | Fin _, (PInf | NInf) => Fin 0
  | Fin p, Fin q =>
      if Qis_zero q then
        (if Qis_zero p then NaN else if Qis_neg p then NInf else PInf)
      else Fin (p / q)
  end.

(** [a * b] on numbers. *)
Definition num_mul (a b : number) : number :=
  match a, b with
  | NaN, _ | _, NaN => NaN
  | PInf, PInf | NInf, NInf => PInf
  | PInf, NInf | NInf, PInf => NInf
  | PInf, Fin q | Fin q, PInf =>
      if Qis_zero q then NaN else if Qis_neg q then NInf else PInf
  | NInf, Fin q | Fin q, NInf =>
      if Qis_zero q then NaN else if Qis_neg q then PInf else NInf
  | Fin p, Fin q => Fin (p * q)
  end.

(** [Math.floor]. *)
Definition math_floor (n : number) : number :=
  match n with
  | Fin q => num_of_Z (Qfloor q)
  | _ => n
  end.

(** Rounding to the nearest integer, ties towards plus infinity. *)
Definition Qround_half_up (q : Q) : Z := Qfloor (q + (1 # 2)).

(** [Math.round]. *)
Definition math_round (n : number) : number :=
  match n with
  | Fin q => num_of_Z (Qround_half_up q)
  | _ => n
  end.

(** [a < b] on numbers that are not [NaN]. *)
Definition num_ltb (a b : number) : bool :=
  match a, b with
  | NaN, _ | _, NaN => false
  | _, NInf => false
  | NInf, _ => true
  | PInf, _ => false
  | _, PInf => true
  | Fin p, Fin q => if Qlt_le_dec p q then true else false
  end.

(** [Math.min(a, b)]. *)
Definition math_min (a b : number) : number :=
  match a, b with
  | NaN, _ | _, NaN => NaN
  | _, _ => if num_ltb b a then b else a
  end.

(** [===] on two numbers. *)
Definition num_eqb (a b : number) : bool :=
  match a, b with
  | Fin p, Fin q => Qeq_bool p q
  | PInf, PInf | NInf, NInf => true
  | _, _ => false
  end.

(* ================================================================= *)
(** ** Strings *)

Definition byte_of (c : ascii) : N := N_of_ascii c.

Definition str_bytes (s : string) : list ascii := list_ascii_of_string s.
Definition bytes_str (l : list ascii) : string := string_of_list_ascii l.

Definition in_range (lo hi : N) (c : ascii) : bool :=
  ((lo <=? byte_of c) && (byte_of c <=? hi))%N.

Definition is_digit (c : ascii) : bool := in_range 48 57 c.
Definition is_upper (c : ascii) : bool := in_range 65 90 c.
Definition is_lower (c : ascii) : bool := in_range 97 122 c.

(** *** White space of [StringToNumber]

    [StrWhiteSpaceChar] is TAB, VT, FF, SP, LF, CR, then U+00A0, U+1680,
    U+2000..U+200A, U+2028, U+2029, U+202F, U+205F, U+3000 and U+FEFF, in
    their UTF-8 encodings of two and three bytes. *)

Definition ws1 (a : ascii) : bool :=
  in_range 9 13 a || (byte_of a =? 32)%N.

Definition ws2 (a b : ascii) : bool :=
  ((byte_of a =? 194) && (byte_of b =? 160))%N.

Definition ws3 (a b c : ascii) : bool :=
  let x := byte_of a in
  let y := byte_of b in
  let z := byte_of c in
  (((x =? 225) && (y =? 154) && (z =? 128))
   || ((x =? 226) && (y =? 128)
         && (((128 <=? z) && (z <=? 138)) || (z =? 168) || (z =? 169) || (z =? 175)))
   || ((x =? 226) && (y =? 129) && (z =? 159))
   || ((x =? 227) && (y =? 128) && (z =? 128))
   || ((x =? 239) && (y =? 187) && (z =? 191)))%N.

Section Trim.
Variable w1 : ascii -> bool.
Variable w2 : ascii -> ascii -> bool.
Variable w3 : ascii -> ascii -> ascii -> bool.

Fixpoint drop_ws (l : list ascii) : list ascii :=
  match l with
  | [] => []
  | a :: r1 =>
      if w1 a then drop_ws r1
      else
        match r1 with
        | [] => l
        | b :: r2 =>
            if w2 a b then drop_ws r2
            else
              match r2 with
              | [] => l
              | c :: r3 => if w3 a b c then drop_ws r3 else l
              end
        end
  end.
End Trim.

Definition trim_left (l : list ascii) : list ascii := drop_ws ws1 ws2 ws3 l.

Definition trim_right (l : list ascii) : list ascii :=
  rev (drop_ws ws1 (fun a b => ws2 b a) (fun a b c => ws3 c b a) (rev l)).

Definition trim (l : list ascii) : list ascii := trim_right (trim_left l).

(** *** Numeric literals *)

Definition digit_val (c : ascii) : option Z :=
  if is_digit c then Some (Z.of_N (byte_of c) - 48)%Z
  else if in_range 97 102 c then Some (Z.of_N (byte_of c) - 87)%Z
  else if in_range 65 70 c then Some (Z.of_N (byte_of c) - 55)%Z
  else None.

(** The value of a non-empty run of digits of [base]; [None] when the run is
    empty or holds another character. *)
Fixpoint digits_from (base acc : Z) (l : list ascii) : option Z :=
  match l with
  | [] => Some acc
  | c :: r =>
      match digit_val c with
      | Some d => if (d <? base)%Z then digits_from base (acc * base + d) r else None
      | None => None
      end
  end.

Definition all_digits (base : Z) (l : list ascii) : option Z :=
  match l with
  | [] => None
  | _ => digits_from base 0 l
  end.

(** The longest prefix of decimal digits, and what follows it. *)
Fixpoint span_digits (l : list ascii) : list ascii * list ascii :=
  match l with
  | c :: r =>
      if is_digit c then let (d, t) := span_digits r in (c :: d, t)
      else ([], l)
  | [] => ([], [])
  end.

Definition dec_value (l : list ascii) : Z :=
  match digits_from 10 0 l with Some z => z | None => 0%Z end.

(** [ExponentPart], optional, to the end of the literal. *)
Definition exponent (l : list ascii) : option Z :=
  match l with
  | [] => Some 0%Z
  | c :: r =>
      if ((byte_of c =? 101) || (byte_of c =? 69))%N then
        match r with
        | "+"%char :: d => all_digits 10 d
        | "-"%char :: d => option_map Z.opp (all_digits 10 d)
        | _ => all_digits 10 r
        end
      else None
  end.

(** [StrUnsignedDecimalLiteral] without [Infinity]. *)
Definition unsigned_decimal (l : list ascii) : option Q :=
  let (ip, r1) := span_digits l in
  let '(fp, r2) :=
    match r1 with
    | "."%char :: r => let (f, t) := span_digits r in (f, t)
    | _ => ([], r1)
    end in
  match ip, fp with
  | [], [] => None
  | _, _ =>
      match exponent r2 with
      | Some e =>
          let k := Z.of_nat (List.length fp) in
          Some (Qred (inject_Z (dec_value ip * 10 ^ k + dec_value fp)
                      / inject_Z (10 ^ k) * Qpower (10 # 1) e))
      | None => None
      end
  end.

Definition infinity_lit : list ascii := str_bytes "Infinity".

Definition bytes_eqb (a b : list ascii) : bool :=
  String.eqb (bytes_str a) (bytes_str b).

Definition unsigned_literal (l : list ascii) : number :=
  if bytes_eqb l infinity_lit then PInf
  else match unsigned_decimal l with
       | Some q => Fin q
       | None => NaN
       end.

Definition num_neg (n : number) : number :=
  match n with
  | NaN => NaN
  | PInf => NInf
  | NInf => PInf
  | Fin q => Fin (Qred (- q))
  end.

(** [StrNumericLiteral]: a prefixed integer in base 16, 8 or 2, or an
    optionally signed decimal literal. *)
Definition numeric_literal (l : list ascii) : number :=
  let prefixed (base : Z) (d : list ascii) :=
    match all_digits base d with
    | Some z => num_of_Z z
    | None => NaN
    end in
  match l with
  | "0"%char :: "x"%char :: d | "0"%char :: "X"%char :: d => prefixed 16%Z d
  | "0"%char :: "o"%char :: d | "0"%char :: "O"%char :: d => prefixed 8%Z d
  | "0"%char :: "b"%char :: d | "0"%char :: "B"%char :: d => prefixed 2%Z d
  | "+"%char :: d => unsigned_literal d
  | "-"%char :: d => num_neg (unsigned_literal d)
  | _ => unsigned_literal l
  end.

(** [StringToNumber]: the empty and the all-blank string are [0]. *)
Definition string_to_number (s : string) : number :=
  match trim (str_bytes s) with
  | [] => Fin 0
  | l => numeric_literal l
  end.

(** *** Printing integers, case mapping, percent encoding *)

Definition Z_to_string (z : Z) : string := NilZero.string_of_int (Z.to_int z).

Definition lower_byte (c : ascii) : ascii :=
  if is_upper c then ascii_of_N (byte_of c + 32) else c.

Definition is_ascii_only (s : string) : bool :=
  forallb (fun c => (byte_of c <? 128)%N) (str_bytes s).

Definition hex_digit (n : N) : ascii :=
  if (n <? 10)%N then ascii_of_N (48 + n) else ascii_of_N (55 + n).

Definition percent_byte (c : ascii) : list ascii :=
  [ "%"%char; hex_digit (byte_of c / 16); hex_digit (byte_of c mod 16) ].

(** The characters [encodeURIComponent] leaves alone:
    letters, digits and [- _ . ! ~ * ' ( )]. *)
Definition uri_unreserved (c : ascii) : bool :=
  is_digit c || is_upper c || is_lower c
  || existsb (Ascii.eqb c) (str_bytes "-_.!~*'()").

(** A lone surrogate, on which [encodeURIComponent] raises. *)
Fixpoint has_lone_surrogate (l : list ascii) : bool :=
  match l with
  | a :: r =>
      match r with
      | b :: _ =>
          ((byte_of a =? 237)%N && in_range 160 191 b) || has_lone_surrogate r
      | [] => false
      end
  | [] => false
  end.

(** [String.prototype.length]: UTF-16 code units, one per code point and two
    for a code point outside the basic plane. *)
Definition utf16_length (s : string) : Z :=
  fold_right
    (fun c n =>
       let b := byte_of c in
       if in_range 128 191 c then n
       else if (240 <=? b)%N then (n + 2)%Z else (n + 1)%Z)
    0%Z (str_bytes s).

(** An instance of the host's printing of a number that is not an integer,
    used to run the model: sign, integer part and up to seventeen fractional
    digits, trailing zeros removed.  (A JavaScript engine prints the shortest
    decimal that reads back as the same binary64.) *)
Fixpoint frac_digits (fuel : nat) (r d : Z) : list ascii :=
  match fuel with
  | O => []
  | S f =>
      if (r =? 0)%Z then []
      else ascii_of_N (48 + Z.to_N (10 * r / d)) :: frac_digits f ((10 * r) mod d)%Z d
  end.

Definition decimal_to_string (q : Q) : string :=
  let n := Z.abs (Qnum q) in
  let d := Zpos (Qden q) in
  (if Qis_neg q then "-" else "")
    ++ Z_to_string (n / d)
    ++ match frac_digits 17 (n mod d)%Z d with
       | [] => ""
       | ds => "." ++ bytes_str ds
       end.

(** An instance of the host's lower-casing outside ASCII: it maps the ASCII
    letters and leaves every other byte as it is. *)
Definition ascii_lower (s : string) : string :=
  bytes_str (map lower_byte (str_bytes s)).

(* ================================================================= *)
(** ** Values *)

#[local] Set Warnings "-register-all".

Inductive JsVal : Type :=
| JUndefined
| JNull
| JBool (b : bool)
| JNum (n : number)
| JStr (s : string)
| JArr (items : list JsVal)
| JObj (fields : list (string * JsVal)).

Definition JInt (z : Z) : JsVal := JNum (num_of_Z z).

(** ToBoolean. *)
Definition to_boolean (v : JsVal) : bool :=
  match v with
  | JUndefined | JNull => false
  | JBool b => b
  | JNum n => num_truthy n
  | JStr s => negb (String.eqb s "")
  | JArr _ | JObj _ => true
  end.

(** [v == null]: the value is [null] or [undefined]. *)
Definition nullish (v : JsVal) : bool :=
  match v with
  | JUndefined | JNull => true
  | _ => false
  end.

(** [v === lit], for a primitive [lit]; an object or an array is identical to
    no literal. *)
Definition strict_eq (v lit : JsVal) : bool :=
  match v, lit with
  | JUndefined, JUndefined | JNull, JNull => true
  | JBool a, JBool b => Bool.eqb a b
  | JNum a, JNum b => num_eqb a b
  | JStr a, JStr b => String.eqb a b
  | _, _ => false
  end.

(** [a || b] and [a && b] when [b] is already a value. *)
Definition js_or (a b : JsVal) : JsVal := if to_boolean a then a else b.
Definition js_and (a b : JsVal) : JsVal := if to_boolean a then b else a.

(** A parameter default, [f(x = d)]: it applies to [undefined] only. *)
Definition default_arg (v d : JsVal) : JsVal :=
  match v with
  | JUndefined => d
  | _ => v
  end.

(** *** Objects *)

Fixpoint lookup (k : string) (fields : list (string * JsVal)) : option JsVal :=
  match fields with
  | [] => None
  | (k', v) :: r => if String.eqb k k' then Some v else lookup k r
  end.

Definition remove_key (k : string) (fields : list (string * JsVal))
  : list (string * JsVal) :=
  filter (fun kv => negb (String.eqb k (fst kv))) fields.

Definition has_key (k : string) (fields : list (string * JsVal)) : bool :=
  existsb (fun kv => String.eqb k (fst kv)) fields.

(** [o.k = v] on the fields of [o]: an existing property keeps its place, a
    new one goes last. *)
Fixpoint assign (k : string) (v : JsVal) (fields : list (string * JsVal))
  : list (string * JsVal) :=
  match fields with
  | [] => [(k, v)]
  | (k', v') :: r =>
      if String.eqb k k' then (k, v) :: remove_key k r
      else (k', v') :: assign k v r
  end.

(** [v[k]] for a value that is neither [null] nor [undefined].  Strings and
    arrays have their [length]; nothing else is inherited under the names
    the adapter reads. *)
Definition prop (v : JsVal) (k : string) : JsVal :=
  match v with
  | JObj fields =>
      match lookup k fields with
      | Some x => x
      | None => JUndefined
      end
  | JArr l => if String.eqb k "length" then JInt (Z.of_nat (List.length l)) else JUndefined
  | JStr s => if String.eqb k "length" then JInt (utf16_length s) else JUndefined
  | _ => JUndefined
  end.

(** [delete v.k]. *)
Definition delete_prop (v : JsVal) (k : string) : JsVal :=
  match v with
  | JObj fields => JObj (remove_key k fields)
  | _ => v
  end.

(* ================================================================= *)
(** ** Exceptions *)

Inductive exn : Type :=
| TypeError
| URIError
| RequestFailed.

Inductive result (A : Type) : Type :=
| Ok (a : A)
| Throw (e : exn).

Arguments Ok {A} a.
Arguments Throw {A} e.

Definition bind {A B : Type} (m : result A) (f : A -> result B) : result B :=
  match m with
  | Ok a => f a
  | Throw e => Throw e
  end.

Notation "x <- m ;; k" := (bind m (fun x => k))
  (at level 61, m at next level, right associativity).

(** [try { m } catch (e) { h }], for a handler that is a value. *)
Definition try_catch {A : Type} (m : result A) (h : A) : A :=
  match m with
  | Ok a => a
  | Throw _ => h
  end.

(** [v.k]: a TypeError on [null] and [undefined]. *)
Definition get_prop (v : JsVal) (k : string) : result JsVal :=
  if nullish v then Throw TypeError else Ok (prop v k).

(** [a || b] and [a && b] with the right operand evaluated on demand. *)
Definition or_else (a : JsVal) (b : result JsVal) : result JsVal :=
  if to_boolean a then Ok a else b.
Definition and_then (a : JsVal) (b : result JsVal) : result JsVal :=
  if to_boolean a then b else Ok a.

Fixpoint mapM {A B : Type} (f : A -> result B) (l : list A) : result (list B) :=
  match l with
  | [] => Ok []
  | x :: r =>
      y <- f x ;;
      ys <- mapM f r ;;
      Ok (y :: ys)
  end.

(** [v.map(f)]: only an array has the method. *)
Definition array_map (f : JsVal -> result JsVal) (v : JsVal) : result (list JsVal) :=
  match v with
  | JArr l => mapM f l
  | _ => Throw TypeError
  end.

(** ToIntegerOrInfinity of a finite number: truncation towards zero. *)
Definition Qtrunc (q : Q) : Z := Z.quot (Qnum q) (Zpos (Qden q)).

(** [cards.slice(0, end)] for a number [end]: a negative [end] counts from
    the end of the array. *)
Definition slice0 {A : Type} (l : list A) (end_ : number) : list A :=
  let len := Z.of_nat (List.length l) in
  let final :=
    match end_ with
    | NaN => 0%Z
    | PInf => len
    | NInf => 0%Z
    | Fin q =>
        let e := Qtrunc q in
        if (e <? 0)%Z then Z.max (len + e) 0 else Z.min e len
    end in
  firstn (Z.to_nat final) l.

(* ================================================================= *)
(** ** The host, and the conversions that go through it *)

Section Host.

(** [Number.prototype.toString] of a finite number that is not an integer
    below [10^21] depends on the binary64 representation; the adapter is
    verified for every such printing. *)
Variable fraction_to_string : Q -> string.

(** [String.prototype.toLowerCase] of a string with a character outside
    ASCII follows the Unicode case tables of the host. *)
Variable unicode_lower : string -> string.

Definition number_to_string (n : number) : string :=
  match n with
  | NaN => "NaN"
  | PInf => "Infinity"
  | NInf => "-Infinity"
  | Fin q =>
      let z := Qfloor q in
      if Qeq_bool q (inject_Z z) && (Z.abs z <? 10 ^ 21)%Z
      then Z_to_string z
      else fraction_to_string q
  end.

(** ToString.  An array prints its elements separated by commas, [null] and
    [undefined] as nothing; a plain object prints as [[object Object]]. *)
Fixpoint to_string (v : JsVal) : string :=
  match v with
  | JUndefined => "undefined"
  | JNull => "null"
  | JBool true => "true"
  | JBool false => "false"
  | JNum n => number_to_string n
  | JStr s => s
  | JArr l =>
      let elem (x : JsVal) : string :=
        match x with
        | JUndefined | JNull => ""
        | _ => to_string x
        end in
      (fix join (l : list JsVal) : string :=
         match l with
         | [] => ""
         | [x] => elem x
         | x :: r => elem x ++ "," ++ join r
         end) l
  | JObj _ => "[object Object]"
  end.

(** ToNumber, which is what [Number(v)] and the operands of [/] and [*]
    go through.  An object or an array converts through its string. *)
Definition to_number (v : JsVal) : number :=
  match v with
  | JUndefined => NaN
  | JNull => Fin 0
  | JBool true => Fin 1
  | JBool false => Fin 0
  | JNum n => n
  | JStr s => string_to_number s
  | JArr _ | JObj _ => string_to_number (to_string v)
  end.

(** [encodeURIComponent(v)]: a URIError on a lone surrogate. *)
Definition encodeURIComponent (v : JsVal) : result string :=
  let bytes := str_bytes (to_string v) in
  if has_lone_surrogate bytes then Throw URIError
  else Ok (bytes_str
             (flat_map (fun c => if uri_unreserved c then [c] else percent_byte c)
                       bytes)).

(** [v.toLowerCase()]: only a string has the method. *)
Definition toLowerCase (v : JsVal) : result JsVal :=
  match v with
  | JStr s => Ok (JStr (if is_ascii_only s then ascii_lower s else unicode_lower s))
  | _ => Throw TypeError
  end.

(* =============================================================== *)
(** ** The adapter: helpers (lines 38-53) *)

(** [_ticksToMs(ticks)], lines 38-45. *)
Definition _ticksToMs (ticks : JsVal) : JsVal :=
  if negb (to_boolean ticks) && negb (strict_eq ticks (JInt 0)) then JNull
  else
    let n := to_number ticks in
    if is_NaN n then JNull
    else JNum (math_floor (num_div n (num_of_Z 10000))).

(** [_imageUrl(itemId, type = 'Primary', maxWidth)], lines 48-53. *)
Definition _imageUrl (itemId type maxWidth : JsVal) : result string :=
  let type := default_arg type (JStr "Primary") in
  let qs := if to_boolean maxWidth then "?maxWidth=" ++ to_string maxWidth else "" in
  id <- encodeURIComponent itemId ;;
  ty <- encodeURIComponent type ;;
  Ok ("/jellyfin/image/" ++ id ++ "?type=" ++ ty ++ qs).

(** The percentage of lines 77 and 190, the same expression in both
    mappers: [(runtime && pos) ? Math.round((pos / runtime) * 100) : 0]. *)
Definition percent (runtime pos : JsVal) : JsVal :=
  if to_boolean (js_and runtime pos)
  then JNum (math_round
               (num_mul (num_div (to_number pos) (to_number runtime)) (num_of_Z 100)))
  else JInt 0.

(** The theme of lines 97 and 192. *)
Definition theme_of (type : JsVal) : JsVal :=
  if strict_eq type (JStr "Movie") then JStr "movie"
  else if strict_eq type (JStr "Episode") then JStr "episode"
  else JStr "".

(** [id ? this._imageUrl(id, kind) : null], lines 87-88 and 186-187. *)
Definition image_or_null (id : JsVal) (kind : string) : result JsVal :=
  if to_boolean id then
    url <- _imageUrl id (JStr kind) JUndefined ;;
    Ok (JStr url)
  else Ok JNull.

(* =============================================================== *)
(** ** The card mappers *)

(** [o.k || d]. *)
Definition field_or (o : JsVal) (k : string) (d : JsVal) : result JsVal :=
  v <- get_prop o k ;;
  Ok (js_or v d).

(** [item.RunTimeTicks ? this._ticksToMs(item.RunTimeTicks) : (item.RunTime || null)],
    lines 62 and 174. *)
Definition runtime_of (item : JsVal) : result JsVal :=
  runTimeTicks <- get_prop item "RunTimeTicks" ;;
  if to_boolean runTimeTicks then Ok (_ticksToMs runTimeTicks)
  else field_or item "RunTime" JNull.

(** [this._ticksToMs(ps.PositionTicks) || (ps.Position != null ? ps.Position : null)],
    line 61. *)
Definition position_of (ps : JsVal) : result JsVal :=
  positionTicks <- get_prop ps "PositionTicks" ;;
  or_else (_ticksToMs positionTicks)
          (position <- get_prop ps "Position" ;;
           Ok (if negb (nullish position) then position else JNull)).

(** [session.Client && session.Client.Name], lines 79 and 81. *)
Definition client_name (session : JsVal) : result JsVal :=
  cl <- get_prop session "Client" ;;
  and_then cl (get_prop cl "Name").

(** The body of the [try] of [_mapSessionToCard], lines 58-99. *)
Definition session_card (session : JsVal) : result JsVal :=
  npi <- get_prop session "NowPlayingItem" ;;
  let item := js_or npi (JObj []) in
  pst <- get_prop session "PlayState" ;;
  let ps := js_or pst (JObj []) in
  usr <- get_prop session "User" ;;
  let user := js_or usr (JObj []) in
  posMs <- position_of ps ;;
  runtime <- runtime_of item ;;
  title <- field_or item "Name" (JStr "") ;;
  type <- field_or item "Type" (JStr "") ;;
  mediaType <- toLowerCase type ;;
  seriesTitle <- field_or item "SeriesName" JNull ;;
  episodeName <- field_or item "Name" JNull ;;
  season <- field_or item "ParentIndexNumber" JNull ;;
  episode <- field_or item "IndexNumber" JNull ;;
  deviceName <- get_prop session "DeviceName" ;;
  playerName0 <- or_else deviceName (client_name session) ;;
  playerIP <- field_or session "RemoteEndPoint" JNull ;;
  device <- get_prop session "Device" ;;
  device' <- and_then device (get_prop session "Device") ;;
  playerDevice0 <- or_else device' (client_name session) ;;
  itemId <- get_prop item "Id" ;;
  sessionId <- field_or session "Id" JNull ;;
  sessionUserId <- get_prop session "UserId" ;;
  userId0 <- or_else sessionUserId (and_then user (get_prop user "Id")) ;;
  posterUrl <- image_or_null itemId "Primary" ;;
  backdropUrl <- image_or_null itemId "Backdrop" ;;
  let card :=
    [ ("title", title);
      ("mediaType", mediaType);
      ("seriesTitle", seriesTitle);
      ("episodeName", episodeName);
      ("season", season);
      ("episode", episode);
      ("runtimeMs", runtime);
      ("progressMs", posMs);
      ("progressPercent", percent runtime posMs);
      ("playerName", js_or playerName0 JNull);
      ("playerIP", playerIP);
      ("playerDevice", js_or playerDevice0 JNull);
      ("itemId", js_or itemId JNull);
      ("sessionId", sessionId);
      ("userId", js_or userId0 JNull);
      ("posterUrl", posterUrl);
      ("backdropUrl", backdropUrl);
      ("__raw", session) ] in
  let card := assign "progress" (prop (JObj card) "progressPercent") card in
  itemType <- get_prop item "Type" ;;
  let card := assign "theme" (theme_of itemType) card in
  Ok (JObj card).

(** [_mapSessionToCard(session)], lines 56-103: the card, or [null] when
    anything in the body raises. *)
Definition _mapSessionToCard (session : JsVal) : JsVal :=
  try_catch (session_card session) JNull.

(** The resume position of an item, lines 175-176. *)
Definition resume_of (it : JsVal) : result JsVal :=
  userData <- get_prop it "UserData" ;;
  ticks <- and_then userData (get_prop userData "PlaybackPositionTicks") ;;
  if to_boolean ticks then
    userData' <- get_prop it "UserData" ;;
    ticks' <- get_prop userData' "PlaybackPositionTicks" ;;
    Ok (_ticksToMs ticks')
  else
    position <- and_then userData
                  (playState <- get_prop userData "PlayState" ;;
                   and_then playState (get_prop playState "Position")) ;;
    if to_boolean position then
      playState' <- get_prop userData "PlayState" ;;
      get_prop playState' "Position"
    else Ok JNull.

(** The mapper of items, the arrow function of lines 173-197. *)
Definition mapItemToCard (it : JsVal) : result JsVal :=
  runtime <- runtime_of it ;;
  resumeMs <- resume_of it ;;
  title <- field_or it "Name" (JStr "") ;;
  type <- field_or it "Type" (JStr "") ;;
  mediaType <- toLowerCase type ;;
  seriesTitle <- field_or it "SeriesName" JNull ;;
  episodeName <- field_or it "Name" JNull ;;
  season <- field_or it "ParentIndexNumber" JNull ;;
  episode <- field_or it "IndexNumber" JNull ;;
  itemId <- get_prop it "Id" ;;
  posterUrl <- image_or_null itemId "Primary" ;;
  backdropUrl <- image_or_null itemId "Backdrop" ;;
  itemType <- get_prop it "Type" ;;
  userData <- get_prop it "UserData" ;;
  lastPlayed <- and_then userData (get_prop userData "LastPlayedUserId") ;;
  userId0 <- (if to_boolean lastPlayed then
                userData' <- get_prop it "UserData" ;;
                get_prop userData' "LastPlayedUserId"
              else Ok JNull) ;;
  Ok (JObj
        [ ("title", title);
          ("mediaType", mediaType);
          ("seriesTitle", seriesTitle);
          ("episodeName", episodeName);
          ("season", season);
          ("episode", episode);
          ("itemId", js_or itemId JNull);
          ("posterUrl", posterUrl);
          ("backdropUrl", backdropUrl);
          ("runtimeMs", runtime);
          ("resumePositionMs", resumeMs);
          ("resumePercent", percent runtime resumeMs);
          ("theme", theme_of itemType);
          ("userId", userId0);
          ("__raw", it) ]).

(* =============================================================== *)
(** ** The pipelines *)

(** A request of the HTTP client: [this.client.get(path, { params })]. *)
Record request : Type := mk_request { path : string; params : JsVal }.

(** What the promise of a request settles to: the [data] of the response,
    or a rejection (network error, timeout, status outside 2xx). *)
Inductive response : Type :=
| Resolved (data : JsVal)
| Rejected.

(** The adapter object, as its constructor leaves it (lines 17-35); the
    constructor stores [opts.userId || null] in [userId]. *)
Record JellyfinMS : Type := mk_JellyfinMS {
  base : string;
  token : string;
  userId : JsVal;
  libraries : JsVal;
  hasArt : JsVal;
  client : request -> response
}.

(** An asynchronous method: the requests it sent, in order, and how it
    settled. *)
Definition Eff (A : Type) : Type := (list request * result A)%type.

Definition ret {A : Type} (a : A) : Eff A := ([], Ok a).

Definition lift {A : Type} (r : result A) : Eff A := ([], r).

Definition ebind {A B : Type} (m : Eff A) (f : A -> Eff B) : Eff B :=
  match m with
  | (l, Ok a) => let (l', r) := f a in ((l ++ l')%list, r)
  | (l, Throw e) => (l, Throw e)
  end.

Notation "x <~ m ;; k" := (ebind m (fun x => k))
  (at level 61, m at next level, right associativity).

(** [try { m } catch (err) { h }]. *)
Definition catch {A : Type} (m : Eff A) (h : Eff A) : Eff A :=
  match m with
  | (l, Ok a) => (l, Ok a)
  | (l, Throw _) => let (l', r) := h in ((l ++ l')%list, r)
  end.

(** [(await this.client.get(path, { params })).data]. *)
Definition client_get (this : JellyfinMS) (p : string) (ps : JsVal) : Eff JsVal :=
  let req := mk_request p ps in
  ([req], match client this req with
          | Resolved data => Ok data
          | Rejected => Throw RequestFailed
          end).

Definition is_array (v : JsVal) : bool :=
  match v with JArr _ => true | _ => false end.

(** [hideUser === true || hideUser === 'true'], line 128. *)
Definition hide_flag (hideUser : JsVal) : bool :=
  strict_eq hideUser (JBool true) || strict_eq hideUser (JStr "true").

(** [GetNowScreening], lines 112-137.  Of its nine parameters the body
    reads [hideUser] and [excludeLibraries] only, and the block guarded by
    [excludeLibraries] is empty. *)
Definition GetNowScreening (this : JellyfinMS) (hideUser excludeLibraries : JsVal)
  : Eff JsVal :=
  catch
    (data <~ client_get this "/Sessions" JUndefined ;;
     let sessions := js_or data (JArr []) in
     mapped <~ lift (array_map (fun s => Ok (_mapSessionToCard s)) sessions) ;;
     let cards := filter (fun c => negb (strict_eq c JNull)) mapped in
     let cards :=
       if to_boolean excludeLibraries && is_array excludeLibraries
          && num_ltb (Fin 0) (to_number (prop excludeLibraries "length"))
       then cards
       else cards in
     let cards :=
       if hide_flag hideUser then map (fun c => delete_prop c "userId") cards
       else cards in
     ret (JArr cards))
    (ret (JArr [])).

(** [Math.min(200, Number(numberOnDemand) || 30)] with the default
    [numberOnDemand = 20] of the signature, lines 148-149. *)
Definition onDemandLimit (numberOnDemand : JsVal) : number :=
  let numberOnDemand := default_arg numberOnDemand (JInt 20) in
  let n := to_number numberOnDemand in
  math_min (num_of_Z 200) (if num_truthy n then n else num_of_Z 30).

(** [(data && data.Items) ? data.Items : (data || [])], lines 157 and 169. *)
Definition items_of (data : JsVal) : result JsVal :=
  c <- and_then data (get_prop data "Items") ;;
  if to_boolean c then get_prop data "Items" else Ok (js_or data (JArr [])).

(** [!items || items.length === 0], line 161. *)
Definition no_items (items : JsVal) : result bool :=
  if negb (to_boolean items) then Ok true
  else
    len <- get_prop items "length" ;;
    Ok (strict_eq len (JInt 0)).

Definition limit_params (limit : number) : JsVal := JObj [("Limit", JNum limit)].

Definition resume_path (u : string) : string := "/Users/" ++ u ++ "/Items/Resume".

(** [GetOnDemand], lines 148-204.  The body reads [numberOnDemand] only. *)
Definition GetOnDemand (this : JellyfinMS) (numberOnDemand : JsVal) : Eff JsVal :=
  let limit := onDemandLimit numberOnDemand in
  catch
    (items <~ (if to_boolean (userId this) then
                 u <~ lift (encodeURIComponent (userId this)) ;;
                 data <~ client_get this (resume_path u) (limit_params limit) ;;
                 lift (items_of data)
               else ret (JArr [])) ;;
     empty <~ lift (no_items items) ;;
     items <~ (if empty && to_boolean (js_or (userId this) (JBool true)) then
                 data2 <~ client_get this "/Items/Latest" (limit_params limit) ;;
                 lift (items_of data2)
               else ret items) ;;
     cards <~ lift (array_map mapItemToCard (js_or items (JArr []))) ;;
     ret (JArr (slice0 cards limit)))
    (ret (JArr [])).

(* =============================================================== *)
(** ** What the specification says, in its own words *)

(** Section 4.4: the count "clamped to [[0, 200]] (default 30 if unspecified
    or non-numeric)". *)
Definition clamped_count (count : JsVal) : number :=
  let n := to_number count in
  if is_NaN n then num_of_Z 30
  else if num_ltb n (num_of_Z 0) then num_of_Z 0
  else if num_ltb (num_of_Z 200) n then num_of_Z 200
  else n.



(** The theme of a card against the upstream [Type] it was made from. *)
Definition theme_law (type card : JsVal) : Prop :=
  let theme := prop card "theme" in
  (theme = JStr "movie" <-> type = JStr "Movie")
  /\ (theme = JStr "episode" <-> type = JStr "Episode")
  /\ (type <> JStr "Movie" -> type <> JStr "Episode" -> theme = JStr "")
  /\ (theme <> JStr "" -> theme = prop card "mediaType")
  /\ (forall s : string,
        type = JStr s -> is_ascii_only s = true -> s <> "" ->
        prop card "mediaType" = JStr (ascii_lower s) /\ ascii_lower s <> "").

(** The recently-added source on its own: the request, and its items mapped
    and truncated (nothing when the request or the mapping fails). *)
Definition latest_request (limit : number) : request :=
  mk_request "/Items/Latest" (limit_params limit).

Definition resume_request (u : string) (limit : number) : request :=
  mk_request (resume_path u) (limit_params limit).

(** The cards of a batch of items: mapped, then truncated; nothing when the
    mapping raises. *)
Definition cards_of (items : JsVal) (limit : number) : JsVal :=
  match array_map mapItemToCard (js_or items (JArr [])) with
  | Ok cards => JArr (slice0 cards limit)
  | Throw _ => JArr []
  end.

Definition latest_cards (this : JellyfinMS) (limit : number) : JsVal :=
  match client this (latest_request limit) with
  | Resolved data =>
      match items_of data with
      | Ok items => cards_of items limit
      | Throw _ => JArr []
      end
  | Rejected => JArr []
  end.

Definition sessions_request : request := mk_request "/Sessions" JUndefined.

(** The live cards before the hide-user flag is looked at. *)
Definition live_cards (this : JellyfinMS) : list JsVal :=
  match client this sessions_request with
  | Resolved data =>
      match js_or data (JArr []) with
      | JArr sessions =>
          filter (fun c => negb (strict_eq c JNull)) (map _mapSessionToCard sessions)
      | _ => []
      end
  | Rejected => []
  end.

(** Section 4.3, step 3: card [c1] is card [c0] with its [userId] removed
    and every other field as it was. *)
Definition userId_stripped (c0 c1 : JsVal) : Prop :=
  exists f0 f1,
    c0 = JObj f0 /\ c1 = JObj f1
    /\ has_key "userId" f1 = false
    /\ forall k : string, k <> "userId" -> lookup k f1 = lookup k f0.

(** A card as a value: an object with these fields. *)
Definition is_card (c : JsVal) : Prop := exists fields, c = JObj fields.

(* =============================================================== *)
(** ** Sample inputs *)

Definition sample_item (id : string) : JsVal :=
  JObj [("Id", JStr id); ("Name", JStr "X"); ("Type", JStr "Movie");
        ("RunTimeTicks", JInt 600000000)].

(** The session of section 8 of the specification. *)
Definition sample_session : JsVal :=
  JObj [("NowPlayingItem", sample_item "42");
        ("PlayState", JObj [("PositionTicks", JInt 300000000)])].

(** A session paused at the very start, with both position fields. *)
Definition zero_ticks_session : JsVal :=
  JObj [("PlayState", JObj [("PositionTicks", JInt 0); ("Position", JInt 5000)])].

(** A session paused at the very start, with the tick field only. *)
Definition zero_ticks_only_session : JsVal :=
  JObj [("PlayState", JObj [("PositionTicks", JInt 0)])].


(** A session whose type is spelled in lower case. *)
Definition lowercase_type_session : JsVal :=
  JObj [("NowPlayingItem", JObj [("Type", JStr "movie")])].

(** An upstream that serves three recently-added items and whose resume
    endpoint is down. *)
Definition resume_down (r : request) : response :=
  if String.eqb (path r) "/Items/Latest"
  then Resolved (JArr [sample_item "1"; sample_item "2"; sample_item "3"])
  else Rejected.

(** An upstream whose resume list is empty and that serves one
    recently-added item. *)
Definition resume_empty (r : request) : response :=
  if String.eqb (path r) "/Items/Latest"
  then Resolved (JObj [("Items", JArr [sample_item "7"])])
  else Resolved (JObj [("Items", JArr [])]).

(** An upstream with one live session. *)
Definition one_session (r : request) : response :=
  if String.eqb (path r) "/Sessions"
  then Resolved (JArr [JObj [("UserId", JStr "u1"); ("DeviceName", JStr "TV")]])
  else Rejected.

Definition adapter (user : JsVal) (c : request -> response) : JellyfinMS :=
  mk_JellyfinMS "http://jellyfin.local" "key" user JNull (JBool false) c.

(* =============================================================== *)
(** ** The values of the mappers' fields on a record that is there *)

Definition runtime_val (item : JsVal) : JsVal :=
  if to_boolean (prop item "RunTimeTicks") then _ticksToMs (prop item "RunTimeTicks")
  else js_or (prop item "RunTime") JNull.

Definition position_val (ps : JsVal) : JsVal :=
  js_or (_ticksToMs (prop ps "PositionTicks"))
        (if negb (nullish (prop ps "Position")) then prop ps "Position" else JNull).

Definition resume_val (it : JsVal) : JsVal :=
  let userData := prop it "UserData" in
  let playState := prop userData "PlayState" in
  if to_boolean (js_and userData (prop userData "PlaybackPositionTicks"))
  then _ticksToMs (prop userData "PlaybackPositionTicks")
  else if to_boolean (js_and userData (js_and playState (prop playState "Position")))
       then prop playState "Position"
       else JNull.

Definition last_played_val (it : JsVal) : JsVal :=
  let userData := prop it "UserData" in
  if to_boolean (js_and userData (prop userData "LastPlayedUserId"))
  then prop userData "LastPlayedUserId"
  else JNull.

(** The fields of a session card, given the three of them that can raise. *)
Definition session_fields (session mediaType posterUrl backdropUrl : JsVal)
  : list (string * JsVal) :=
  let item := js_or (prop session "NowPlayingItem") (JObj []) in
  let ps := js_or (prop session "PlayState") (JObj []) in
  let user := js_or (prop session "User") (JObj []) in
  let cname := js_and (prop session "Client") (prop (prop session "Client") "Name") in
  [ ("title", js_or (prop item "Name") (JStr ""));
    ("mediaType", mediaType);
    ("seriesTitle", js_or (prop item "SeriesName") JNull);
    ("episodeName", js_or (prop item "Name") JNull);
    ("season", js_or (prop item "ParentIndexNumber") JNull);
    ("episode", js_or (prop item "IndexNumber") JNull);
    ("runtimeMs", runtime_val item);
    ("progressMs", position_val ps);
    ("progressPercent", percent (runtime_val item) (position_val ps));
    ("playerName", js_or (js_or (prop session "DeviceName") cname) JNull);
    ("playerIP", js_or (prop session "RemoteEndPoint") JNull);
    ("playerDevice",
      js_or (js_or (js_and (prop session "Device") (prop session "Device")) cname)
            JNull);
    ("itemId", js_or (prop item "Id") JNull);
    ("sessionId", js_or (prop session "Id") JNull);
    ("userId",
      js_or (js_or (prop session "UserId") (js_and user (prop user "Id"))) JNull);
    ("posterUrl", posterUrl);
    ("backdropUrl", backdropUrl);
    ("__raw", session);
    ("progress", percent (runtime_val item) (position_val ps));
    ("theme", theme_of (prop item "Type")) ].

(** The fields of an item card, given the three of them that can raise. *)
Definition item_fields (it mediaType posterUrl backdropUrl : JsVal)
  : list (string * JsVal) :=
  [ ("title", js_or (prop it "Name") (JStr ""));
    ("mediaType", mediaType);
    ("seriesTitle", js_or (prop it "SeriesName") JNull);
    ("episodeName", js_or (prop it "Name") JNull);
    ("season", js_or (prop it "ParentIndexNumber") JNull);
    ("episode", js_or (prop it "IndexNumber") JNull);
    ("itemId", js_or (prop it "Id") JNull);
    ("posterUrl", posterUrl);
    ("backdropUrl", backdropUrl);
    ("runtimeMs", runtime_val it);
    ("resumePositionMs", resume_val it);
    ("resumePercent", percent (runtime_val it) (resume_val it));
    ("theme", theme_of (prop it "Type"));
    ("userId", last_played_val it);
    ("__raw", it) ].

(** How a call of [GetOnDemand] went. *)
Inductive on_demand_run (this : JellyfinMS) (limit : number)
  : list request -> JsVal -> Prop :=
| run_no_user :
    to_boolean (userId this) = false ->
    on_demand_run this limit [latest_request limit] (latest_cards this limit)
| run_bad_user (e : exn) :
    to_boolean (userId this) = true ->
    encodeURIComponent (userId this) = Throw e ->
    on_demand_run this limit [] (JArr [])
| run_resume_failed (u : string) :
    to_boolean (userId this) = true ->
    encodeURIComponent (userId this) = Ok u ->
    client this (resume_request u limit) = Rejected ->
    on_demand_run this limit [resume_request u limit] (JArr [])
| run_resume_empty (u : string) (data items : JsVal) :
    to_boolean (userId this) = true ->
    encodeURIComponent (userId this) = Ok u ->
    client this (resume_request u limit) = Resolved data ->
    items_of data = Ok items ->
    no_items items = Ok true ->
    on_demand_run this limit
      [resume_request u limit; latest_request limit] (latest_cards this limit)
| run_resume (u : string) (data items : JsVal) :
    to_boolean (userId this) = true ->
    encodeURIComponent (userId this) = Ok u ->
    client this (resume_request u limit) = Resolved data ->
    items_of data = Ok items ->
    no_items items = Ok false ->
    on_demand_run this limit [resume_request u limit] (cards_of items limit).

(* =============================================================== *)
(** ** The constructor (lines 17-35) *)

(** [s.replace(/\/$/, '')]: a slash that ends the string is removed, once. *)
Definition strip_trailing_slash (s : string) : string :=
  match rev (str_bytes s) with
  | c :: r => if Ascii.eqb c "/" then bytes_str (rev r) else s
  | [] => s
  end.

(** [url.replace(/\/$/, '')]: only a string has the method. *)
Definition replace_trailing_slash (url : JsVal) : result string :=
  match url with
  | JStr s => Ok (strip_trailing_slash s)
  | _ => Throw TypeError
  end.

(** The fields the constructor sets on [this], before [axios.create]. *)
Record Instance : Type := mk_Instance {
  i_base : string;
  i_token : JsVal;
  i_userId : JsVal;
  i_libraries : JsVal;
  i_hasArt : JsVal
}.

(** How [new JellyfinMS(opts)] ends: the instance, the [Error] of line 19
    with its message, or an exception of the language. *)
Inductive construction : Type :=
| Constructed (i : Instance)
| ConfigError (message : string)
| Raised (e : exn).

Definition config_message : string :=
  "JellyfinMS requires jellyfinUrl and jellyfinApiKey".

(** [constructor(opts = {})], lines 17-26. *)
Definition JellyfinMS_constructor (opts : JsVal) : construction :=
  let opts := default_arg opts (JObj []) in
  match
    (jellyfinUrl <- get_prop opts "jellyfinUrl" ;;
     if negb (to_boolean jellyfinUrl) then Ok true
     else
       jellyfinApiKey <- get_prop opts "jellyfinApiKey" ;;
       Ok (negb (to_boolean jellyfinApiKey)))
  with
  | Throw e => Raised e
  | Ok true => ConfigError config_message
  | Ok false =>
      match
        (jellyfinUrl <- get_prop opts "jellyfinUrl" ;;
         base <- replace_trailing_slash jellyfinUrl ;;
         token <- get_prop opts "jellyfinApiKey" ;;
         userId <- field_or opts "userId" JNull ;;
         libraries <- field_or opts "libraries" JNull ;;
         hasArt <- field_or opts "hasArt" (JBool false) ;;
         Ok (mk_Instance base token userId libraries hasArt))
      with
      | Ok i => Constructed i
      | Throw e => Raised e
      end
  end.

(* =============================================================== *)
(** ** Percent encoding, byte by byte *)

Definition uri_encode_bytes (l : list ascii) : list ascii :=
  flat_map (fun c => if uri_unreserved c then [c] else percent_byte c) l.

(** A byte that [encodeURIComponent] can put out: an unreserved one, or the
    percent sign of an escape. *)
Definition uri_safe (c : ascii) : bool := uri_unreserved c || Ascii.eqb c "%".

(** The item id as it stands in an image reference. *)
Definition encoded_id (v : JsVal) : string :=
  bytes_str (uri_encode_bytes (str_bytes (to_string v))).

(** The image reference of an item, without a size hint. *)
Definition image_ref (v : JsVal) (kind : string) : string :=
  "/jellyfin/image/" ++ encoded_id v ++ "?type=" ++ kind.

(* =============================================================== *)
(** ** The keys of the cards *)

Definition session_card_keys : list string :=
  [ "title"; "mediaType"; "seriesTitle"; "episodeName"; "season"; "episode";
    "runtimeMs"; "progressMs"; "progressPercent"; "playerName"; "playerIP";
    "playerDevice"; "itemId"; "sessionId"; "userId"; "posterUrl"; "backdropUrl";
    "__raw"; "progress"; "theme" ].

Definition item_card_keys : list string :=
  [ "title"; "mediaType"; "seriesTitle"; "episodeName"; "season"; "episode";
    "itemId"; "posterUrl"; "backdropUrl"; "runtimeMs"; "resumePositionMs";
    "resumePercent"; "theme"; "userId"; "__raw" ].

(** The fields written [x || null] in the session mapper. *)
Definition session_nullable_keys : list string :=
  [ "seriesTitle"; "episodeName"; "season"; "episode"; "playerName"; "playerIP";
    "playerDevice"; "itemId"; "sessionId"; "userId" ].

(** The now-playing item of a session, as the mapper reads it. *)
Definition item_of (session : JsVal) : JsVal :=
  js_or (prop session "NowPlayingItem") (JObj []).

(** No field of the object is [undefined]. *)
Definition all_defined (c : JsVal) : Prop :=
  match c with
  | JObj fields => Forall (fun kv => snd kv <> JUndefined) fields
  | _ => False
  end.

Definition keys_of (c : JsVal) : list string :=
  match c with
  | JObj fields => map fst fields
  | _ => []
  end.

(** [c !== null], the filter of line 120. *)
Definition not_null (c : JsVal) : bool := negb (strict_eq c JNull).

(* =============================================================== *)
(** ** More sample inputs *)

(** Options with a trailing slash on the URL and an empty user id. *)
Definition sample_opts : JsVal :=
  JObj [("jellyfinUrl", JStr "http://jellyfin.local:8096/");
        ("jellyfinApiKey", JStr "key");
        ("userId", JStr "")].

Definition sample_instance : Instance :=
  mk_Instance "http://jellyfin.local:8096" (JStr "key") JNull JNull (JBool false).

(** The first episode of a season of specials, played on a named device. *)
Definition special_session : JsVal :=
  JObj [("NowPlayingItem",
         JObj [("Id", JStr "a/b"); ("Name", JStr "Pilot"); ("Type", JStr "Episode");
               ("ParentIndexNumber", JInt 0); ("IndexNumber", JInt 1)]);
        ("UserId", JStr "u1");
        ("DeviceName", JStr "TV")].

(** An upstream with three sessions, the second of them [null]. *)
Definition sessions_with_null : list JsVal :=
  [sample_session; JNull; special_session].

Definition three_sessions (r : request) : response :=
  if String.eqb (path r) "/Sessions" then Resolved (JArr sessions_with_null)
  else Rejected.

(** An upstream that answers every request with a page of text. *)
Definition text_page (r : request) : response := Resolved (JStr "<html></html>").

(** An upstream whose recently-added list holds a [null]. *)
Definition latest_with_null (r : request) : response :=
  if String.eqb (path r) "/Items/Latest"
  then Resolved (JArr [sample_item "1"; JNull; sample_item "3"])
  else Rejected.

(** Two upstreams with the same recently-added item, bare and wrapped. *)
Definition latest_bare (r : request) : response :=
  Resolved (JArr [sample_item "1"]).

Definition latest_wrapped (r : request) : response :=
  Resolved (JObj [("Items", JArr [sample_item "1"]); ("TotalRecordCount", JInt 1)]).

(** An upstream with two items to resume. *)
Definition resume_two (r : request) : response :=
  if String.eqb (path r) "/Items/Latest" then Resolved (JArr [sample_item "1"])
  else Resolved (JObj [("Items", JArr [sample_item "8"; sample_item "9"])]).

(* =============================================================== *)
(** ** Time utilities *)

Lemma Qis_zero_true (q : Q) : Qis_zero q = true <-> q == 0.
Proof. unfold Qis_zero. apply Qeq_bool_iff. Qed.

Lemma Qis_zero_false (q : Q) : Qis_zero q = false <-> ~ q == 0.
Proof.
  rewrite <- Qis_zero_true. destruct (Qis_zero q); split; intro H; try discriminate; auto.
  exfalso. apply H. reflexivity.
Qed.






(* =============================================================== *)
(** ** Reading properties never raises on a value that is there *)

Lemma truthy_not_nullish (v : JsVal) : to_boolean v = true -> nullish v = false.
Proof. destruct v; simpl; intros; congruence. Qed.

Lemma js_or_obj_not_nullish (v : JsVal) : nullish (js_or v (JObj [])) = false.
Proof.
  unfold js_or. destruct (to_boolean v) eqn:E; [now apply truthy_not_nullish | reflexivity].
Qed.

Lemma get_prop_ok (v : JsVal) (k : string) :
  nullish v = false -> get_prop v k = Ok (prop v k).
Proof. unfold get_prop. now intros ->. Qed.

Lemma field_or_ok (o : JsVal) (k : string) (d : JsVal) :
  nullish o = false -> field_or o k d = Ok (js_or (prop o k) d).
Proof. intro H. unfold field_or. now rewrite get_prop_ok. Qed.

Lemma and_then_get (a : JsVal) (k : string) :
  and_then a (get_prop a k) = Ok (js_and a (prop a k)).
Proof.
  unfold and_then, js_and. destruct (to_boolean a) eqn:E; [|reflexivity].
  apply get_prop_ok, truthy_not_nullish, E.
Qed.

Lemma runtime_of_ok (item : JsVal) :
  nullish item = false -> runtime_of item = Ok (runtime_val item).
Proof.
  intro H. unfold runtime_of, runtime_val. rewrite get_prop_ok by exact H. cbn [bind].
  destruct (to_boolean _); [reflexivity | now apply field_or_ok].
Qed.

Lemma position_of_ok (ps : JsVal) :
  nullish ps = false -> position_of ps = Ok (position_val ps).
Proof.
  intro H. unfold position_of, position_val, or_else, js_or.
  rewrite get_prop_ok by exact H. cbn [bind].
  destruct (to_boolean _); [reflexivity|]. now rewrite get_prop_ok by exact H.
Qed.

Lemma client_name_ok (session : JsVal) :
  nullish session = false ->
  client_name session
  = Ok (js_and (prop session "Client") (prop (prop session "Client") "Name")).
Proof.
  intro H. unfold client_name. rewrite get_prop_ok by exact H. cbn [bind].
  apply and_then_get.
Qed.

Lemma or_else_ok (a b : JsVal) : or_else a (Ok b) = Ok (js_or a b).
Proof. unfold or_else, js_or. now destruct (to_boolean a). Qed.

Lemma and_then_ok (a b : JsVal) : and_then a (Ok b) = Ok (js_and a b).
Proof. unfold and_then, js_and. now destruct (to_boolean a). Qed.

Lemma session_card_nullish (session : JsVal) :
  nullish session = true -> session_card session = Throw TypeError.
Proof. intro H. unfold session_card, get_prop. now rewrite H. Qed.

Lemma session_card_eq (session : JsVal) :
  nullish session = false ->
  let item := js_or (prop session "NowPlayingItem") (JObj []) in
  session_card session =
    (mediaType <- toLowerCase (js_or (prop item "Type") (JStr "")) ;;
     posterUrl <- image_or_null (prop item "Id") "Primary" ;;
     backdropUrl <- image_or_null (prop item "Id") "Backdrop" ;;
     Ok (JObj (session_fields session mediaType posterUrl backdropUrl))).
Proof.
  intros H item. unfold session_fields.
  set (ps := js_or (prop session "PlayState") (JObj [])).
  set (user := js_or (prop session "User") (JObj [])).
  set (cname := js_and (prop session "Client") (prop (prop session "Client") "Name")).
  fold item.
  assert (Hi : nullish item = false) by apply js_or_obj_not_nullish.
  assert (Hp : nullish ps = false) by apply js_or_obj_not_nullish.
  unfold session_card.
  rewrite !(get_prop_ok session) by exact H. cbn [bind].
  fold item ps user.
  rewrite position_of_ok by exact Hp. cbn [bind].
  rewrite runtime_of_ok by exact Hi. cbn [bind].
  rewrite !(field_or_ok item) by exact Hi. cbn [bind].
  destruct (toLowerCase _) as [mediaType|e]; cbn [bind]; [|reflexivity].
  rewrite client_name_ok by exact H. fold cname.
  rewrite !or_else_ok. cbn [bind].
  rewrite (field_or_ok session) by exact H. cbn [bind].
  rewrite and_then_ok. cbn [bind]. rewrite or_else_ok. cbn [bind].
  rewrite !(get_prop_ok item) by exact Hi. cbn [bind].
  rewrite (field_or_ok session) by exact H. cbn [bind].
  rewrite and_then_get, or_else_ok. cbn [bind].
  destruct (image_or_null _ "Primary") as [posterUrl|e]; cbn [bind]; [|reflexivity].
  destruct (image_or_null _ "Backdrop") as [backdropUrl|e]; cbn [bind]; [|reflexivity].
  reflexivity.
Qed.

Lemma js_and_truthy (a b : JsVal) :
  to_boolean (js_and a b) = true -> to_boolean a = true /\ to_boolean b = true.
Proof. unfold js_and. destruct (to_boolean a) eqn:E; intro H; [now split | congruence]. Qed.

Lemma resume_of_ok (it : JsVal) :
  nullish it = false -> resume_of it = Ok (resume_val it).
Proof.
  intro H. unfold resume_of, resume_val.
  rewrite !(get_prop_ok it) by exact H. cbn [bind].
  set (ud := prop it "UserData").
  rewrite and_then_get. cbn [bind].
  destruct (to_boolean (js_and ud _)) eqn:E1.
  - apply js_and_truthy in E1 as [Hud _].
    now rewrite get_prop_ok by now apply truthy_not_nullish.
  - assert (Hpos : and_then ud
              (playState <- get_prop ud "PlayState" ;;
               and_then playState (get_prop playState "Position"))
            = Ok (js_and ud (js_and (prop ud "PlayState")
                                    (prop (prop ud "PlayState") "Position")))).
    { unfold and_then at 1. unfold js_and at 1.
      destruct (to_boolean ud) eqn:Eud; [|reflexivity].
      rewrite get_prop_ok by now apply truthy_not_nullish. cbn [bind].
      apply and_then_get. }
    rewrite Hpos. cbn [bind]. cbv zeta. fold ud.
    destruct (to_boolean (js_and ud (js_and _ _))) eqn:E2; [|reflexivity].
    apply js_and_truthy in E2 as [Hud E2]. apply js_and_truthy in E2 as [Hps _].
    rewrite get_prop_ok by now apply truthy_not_nullish. cbn [bind].
    now rewrite get_prop_ok by now apply truthy_not_nullish.
Qed.

Lemma mapItemToCard_nullish (it : JsVal) :
  nullish it = true -> mapItemToCard it = Throw TypeError.
Proof. intro H. unfold mapItemToCard, runtime_of, get_prop. now rewrite H. Qed.

Lemma mapItemToCard_eq (it : JsVal) :
  nullish it = false ->
  mapItemToCard it =
    (mediaType <- toLowerCase (js_or (prop it "Type") (JStr "")) ;;
     posterUrl <- image_or_null (prop it "Id") "Primary" ;;
     backdropUrl <- image_or_null (prop it "Id") "Backdrop" ;;
     Ok (JObj (item_fields it mediaType posterUrl backdropUrl))).
Proof.
  intro H. unfold mapItemToCard, item_fields.
  rewrite runtime_of_ok, resume_of_ok by exact H. cbn [bind].
  rewrite !(field_or_ok it) by exact H. cbn [bind].
  destruct (toLowerCase _) as [mediaType|e]; cbn [bind]; [|reflexivity].
  rewrite !(get_prop_ok it) by exact H. cbn [bind].
  destruct (image_or_null _ "Primary") as [posterUrl|e]; cbn [bind]; [|reflexivity].
  destruct (image_or_null _ "Backdrop") as [backdropUrl|e]; cbn [bind]; [|reflexivity].
  rewrite and_then_get. cbn [bind]. unfold last_played_val.
  destruct (to_boolean (js_and _ _)) eqn:E; [|reflexivity].
  apply js_and_truthy in E as [Hud _].
  now rewrite get_prop_ok by now apply truthy_not_nullish.
Qed.

(* =============================================================== *)
(** ** What a mapper returns *)

Lemma mapSessionToCard_nullish (session : JsVal) :
  nullish session = true -> _mapSessionToCard session = JNull.
Proof. intro H. unfold _mapSessionToCard. now rewrite session_card_nullish. Qed.

Lemma mapSessionToCard_inv (session c : JsVal) :
  _mapSessionToCard session = c -> c <> JNull ->
  let item := js_or (prop session "NowPlayingItem") (JObj []) in
  exists mediaType posterUrl backdropUrl,
    toLowerCase (js_or (prop item "Type") (JStr "")) = Ok mediaType
    /\ c = JObj (session_fields session mediaType posterUrl backdropUrl).
Proof.
  intros Hc Hnn item. unfold _mapSessionToCard in Hc.
  destruct (nullish session) eqn:Hs.
  - rewrite session_card_nullish in Hc by exact Hs. now subst c.
  - rewrite session_card_eq in Hc by exact Hs. fold item in Hc.
    destruct (toLowerCase _) as [mediaType|e]; cbn [bind try_catch] in Hc;
      [|now subst c].
    destruct (image_or_null _ "Primary") as [posterUrl|e]; cbn [bind try_catch] in Hc;
      [|now subst c].
    destruct (image_or_null _ "Backdrop") as [backdropUrl|e]; cbn [bind try_catch] in Hc;
      [|now subst c].
    exists mediaType, posterUrl, backdropUrl. now split.
Qed.

Lemma mapSessionToCard_shape (session : JsVal) :
  _mapSessionToCard session = JNull \/ is_card (_mapSessionToCard session).
Proof.
  destruct (_mapSessionToCard session) eqn:E; try (now left);
    destruct (mapSessionToCard_inv session _ E) as (mt & pu & bu & _ & H);
    try discriminate.
  right. now exists fields.
Qed.

Lemma mapItemToCard_inv (it c : JsVal) :
  mapItemToCard it = Ok c ->
  exists mediaType posterUrl backdropUrl,
    toLowerCase (js_or (prop it "Type") (JStr "")) = Ok mediaType
    /\ c = JObj (item_fields it mediaType posterUrl backdropUrl).
Proof.
  intro Hc. destruct (nullish it) eqn:Hs.
  - now rewrite mapItemToCard_nullish in Hc.
  - rewrite mapItemToCard_eq in Hc by exact Hs.
    destruct (toLowerCase _) as [mediaType|e]; cbn [bind] in Hc; [|discriminate].
    destruct (image_or_null _ "Primary") as [posterUrl|e]; cbn [bind] in Hc; [|discriminate].
    destruct (image_or_null _ "Backdrop") as [backdropUrl|e]; cbn [bind] in Hc; [|discriminate].
    exists mediaType, posterUrl, backdropUrl. split; [reflexivity | congruence].
Qed.

(* =============================================================== *)
(** ** The percentage *)



Lemma percent_finite (qr qp : Q) :
  ~ qr == 0 -> ~ qp == 0 ->
  percent (JNum (Fin qr)) (JNum (Fin qp)) = JInt (Qround_half_up (qp / qr * 100)).
Proof.
  intros Hr Hp. apply Qis_zero_false in Hr, Hp.
  assert (Tr : to_boolean (JNum (Fin qr)) = true) by (cbn; now rewrite Hr).
  assert (Tp : to_boolean (JNum (Fin qp)) = true) by (cbn; now rewrite Hp).
  unfold percent, js_and. rewrite Tr, Tp.
  cbn [to_number]. unfold num_div. rewrite Hr. reflexivity.
Qed.



(* =============================================================== *)
(** ** Theme and media type *)

Lemma strict_eq_str (v : JsVal) (s : string) :
  strict_eq v (JStr s) = true <-> v = JStr s.
Proof.
  destruct v; cbn; try (split; [discriminate | congruence]).
  rewrite String.eqb_eq. split; congruence.
Qed.

Lemma strict_eq_str_false (v : JsVal) (s : string) :
  strict_eq v (JStr s) = false -> v <> JStr s.
Proof. intros H E. apply strict_eq_str in E. congruence. Qed.

Lemma theme_of_movie (type : JsVal) : theme_of type = JStr "movie" <-> type = JStr "Movie".
Proof.
  unfold theme_of. destruct (strict_eq type (JStr "Movie")) eqn:E1.
  - apply strict_eq_str in E1. now split.
  - apply strict_eq_str_false in E1.
    destruct (strict_eq type (JStr "Episode")); split; congruence.
Qed.

Lemma theme_of_episode (type : JsVal) :
  theme_of type = JStr "episode" <-> type = JStr "Episode".
Proof.
  unfold theme_of. destruct (strict_eq type (JStr "Movie")) eqn:E1.
  - apply strict_eq_str in E1. subst type. split; discriminate.
  - destruct (strict_eq type (JStr "Episode")) eqn:E2.
    + apply strict_eq_str in E2. now split.
    + apply strict_eq_str_false in E2. split; congruence.
Qed.

Lemma theme_of_other (type : JsVal) :
  type <> JStr "Movie" -> type <> JStr "Episode" -> theme_of type = JStr "".
Proof.
  intros Hm He. unfold theme_of.
  destruct (strict_eq type (JStr "Movie")) eqn:E1; [now apply strict_eq_str in E1|].
  destruct (strict_eq type (JStr "Episode")) eqn:E2; [now apply strict_eq_str in E2|].
  reflexivity.
Qed.

Lemma theme_is_mediaType (type mediaType : JsVal) :
  toLowerCase (js_or type (JStr "")) = Ok mediaType ->
  theme_of type <> JStr "" -> theme_of type = mediaType.
Proof.
  intros Hl Hne. unfold theme_of in *.
  destruct (strict_eq type (JStr "Movie")) eqn:E1.
  - apply strict_eq_str in E1. subst type. cbv in Hl. congruence.
  - destruct (strict_eq type (JStr "Episode")) eqn:E2; [|congruence].
    apply strict_eq_str in E2. subst type. cbv in Hl. congruence.
Qed.

Lemma lower_of_ascii (s : string) (mediaType : JsVal) :
  toLowerCase (js_or (JStr s) (JStr "")) = Ok mediaType ->
  is_ascii_only s = true -> s <> "" -> mediaType = JStr (ascii_lower s).
Proof.
  intros Hl Ha Hs. unfold js_or in Hl. cbn [to_boolean] in Hl.
  destruct (String.eqb_spec s "") as [E|_]; [contradiction|].
  cbn [negb toLowerCase] in Hl. rewrite Ha in Hl. congruence.
Qed.

Lemma ascii_lower_nonempty (s : string) : s <> "" -> ascii_lower s <> "".
Proof. destruct s as [|c r]; [congruence | discriminate]. Qed.

Lemma theme_spec (type mediaType : JsVal) (fields : list (string * JsVal)) :
  toLowerCase (js_or type (JStr "")) = Ok mediaType ->
  prop (JObj fields) "theme" = theme_of type ->
  prop (JObj fields) "mediaType" = mediaType ->
  theme_law type (JObj fields).
Proof.
  intros Hl Ht Hm. unfold theme_law. rewrite Ht, Hm.
  repeat split; try apply theme_of_movie; try apply theme_of_episode.
  - apply theme_of_other.
  - now apply theme_is_mediaType.
  - subst type. now apply (lower_of_ascii s).
  - now apply ascii_lower_nonempty.
Qed.

(** C10: in every card of either mapper the theme is ['movie'] exactly when
    the upstream [Type] is the string ['Movie'], ['episode'] exactly when it
    is ['Episode'], and empty otherwise, so that a theme that is not empty
    equals the media type; a type in another casing, such as ['movie'],
    gives a card with its media type set and its theme empty. *)
Theorem theme_of_cards :
  (forall session c : JsVal,
      _mapSessionToCard session = c -> c <> JNull ->
      theme_law (prop (js_or (prop session "NowPlayingItem") (JObj [])) "Type") c)
  /\ (forall it c : JsVal, mapItemToCard it = Ok c -> theme_law (prop it "Type") c)
  /\ (prop (_mapSessionToCard lowercase_type_session) "mediaType" = JStr "movie"
      /\ prop (_mapSessionToCard lowercase_type_session) "theme" = JStr "").
Proof.
  split; [|split].
  - intros session c Hc Hnn.
    destruct (mapSessionToCard_inv session c Hc Hnn) as (m & p & b & Hl & ->).
    now apply (theme_spec _ m).
  - intros it c Hc.
    destruct (mapItemToCard_inv it c Hc) as (m & p & b & Hl & ->).
    now apply (theme_spec _ m).
  - split; reflexivity.
Qed.

(* =============================================================== *)
(** ** Sessions without a now-playing item, and sessions that are not objects *)

Lemma mapSessionToCard_no_item (session : JsVal) :
  nullish session = false ->
  to_boolean (prop session "NowPlayingItem") = false ->
  _mapSessionToCard session = JObj (session_fields session (JStr "") JNull JNull)
  /\ prop (_mapSessionToCard session) "title" = JStr ""
  /\ prop (_mapSessionToCard session) "itemId" = JNull.
Proof.
  intros Hs Hi.
  assert (Hitem : js_or (prop session "NowPlayingItem") (JObj []) = JObj [])
    by (unfold js_or; now rewrite Hi).
  assert (E : _mapSessionToCard session
              = JObj (session_fields session (JStr "") JNull JNull)).
  { unfold _mapSessionToCard. rewrite session_card_eq by exact Hs.
    rewrite Hitem. reflexivity. }
  rewrite E. unfold session_fields. rewrite Hitem. repeat split.
Qed.

(** C7, as the code has it: a session object without its now-playing item
    maps to a card with an empty title and a [null] item id; [null] and
    [undefined] map to [null], the exception being caught; a session that
    is a boolean, a number or a string raises nothing and maps to the same
    empty card; and a session whose now-playing [Type] is a truthy value
    other than a string maps to [null], the exception being caught. *)
Theorem session_without_item :
  (forall fields : list (string * JsVal),
      lookup "NowPlayingItem" fields = None ->
      is_card (_mapSessionToCard (JObj fields))
      /\ prop (_mapSessionToCard (JObj fields)) "title" = JStr ""
      /\ prop (_mapSessionToCard (JObj fields)) "itemId" = JNull)
  /\ _mapSessionToCard JNull = JNull
  /\ _mapSessionToCard JUndefined = JNull
  /\ (forall session : JsVal,
         (exists b, session = JBool b) \/ (exists n, session = JNum n)
         \/ (exists s, session = JStr s) ->
         is_card (_mapSessionToCard session)
         /\ prop (_mapSessionToCard session) "title" = JStr ""
         /\ prop (_mapSessionToCard session) "itemId" = JNull)
  /\ (forall session : JsVal,
         nullish session = false ->
         let type := prop (js_or (prop session "NowPlayingItem") (JObj [])) "Type" in
         to_boolean type = true -> (forall s, type <> JStr s) ->
         _mapSessionToCard session = JNull).
Proof.
  split; [|split; [|split; [|split]]]; try reflexivity.
  - intros fields Hl.
    destruct (mapSessionToCard_no_item (JObj fields)) as (E & Ht & Hi);
      [reflexivity | cbn; now rewrite Hl |].
    split; [|now split]. rewrite E. now eexists.
  - intros session Hp.
    assert (Hs : nullish session = false)
      by (destruct Hp as [[b ->] | [[n ->] | [s ->]]]; reflexivity).
    assert (Hi : to_boolean (prop session "NowPlayingItem") = false)
      by (destruct Hp as [[b ->] | [[n ->] | [s ->]]]; reflexivity).
    destruct (mapSessionToCard_no_item session Hs Hi) as (E & Ht & Hid).
    split; [|now split]. rewrite E. now eexists.
  - intros session Hs type Ht Hns.
    unfold _mapSessionToCard. rewrite session_card_eq by exact Hs. fold type.
    unfold js_or at 1. rewrite Ht.
    destruct type; try reflexivity. now destruct (Hns s).
Qed.

(* =============================================================== *)
(** ** Findings on the position and on the image reference *)

(** C8: a tick position of zero is dropped.  With both position fields the
    card takes the raw one, with the tick field alone it has no position;
    a tick runtime of zero gives way to the raw runtime in the same way. *)
Theorem zero_ticks_position_is_dropped :
  _ticksToMs (JInt 0) = JInt 0
  /\ prop (_mapSessionToCard zero_ticks_session) "progressMs" = JInt 5000
  /\ prop (_mapSessionToCard zero_ticks_only_session) "progressMs" = JNull
  /\ runtime_of (JObj [("RunTimeTicks", JInt 0); ("RunTime", JInt 7000)]) = Ok (JInt 7000).
Proof. repeat split. Qed.

(** C9: the size hint is appended with a second [?], not with [&]; without
    the hint the reference is the proxy path of the claim. *)
Theorem imageUrl_size_hint_separator :
  _imageUrl (JStr "42") (JStr "Primary") (JInt 300)
  = Ok "/jellyfin/image/42?type=Primary?maxWidth=300"
  /\ _imageUrl (JStr "42") JUndefined JUndefined = Ok "/jellyfin/image/42?type=Primary"
  /\ _imageUrl (JStr "42") (JStr "Backdrop") JUndefined
     = Ok "/jellyfin/image/42?type=Backdrop".
Proof. repeat split. Qed.

(* =============================================================== *)
(** ** The live-session pipeline *)

Lemma mapM_total {A B : Type} (f : A -> B) (l : list A) :
  mapM (fun x => Ok (f x)) l = Ok (map f l).
Proof. induction l as [|x l IH]; cbn [mapM map bind]; [|rewrite IH]; reflexivity. Qed.

Lemma GetNowScreening_eq (this : JellyfinMS) (hideUser excludeLibraries : JsVal) :
  GetNowScreening this hideUser excludeLibraries
  = ([sessions_request],
     Ok (JArr (if hide_flag hideUser
               then map (fun c => delete_prop c "userId") (live_cards this)
               else live_cards this))).
Proof.
  unfold GetNowScreening, live_cards, client_get. fold sessions_request.
  destruct (client this sessions_request) as [data|]; cbn [ebind catch ret app].
  - destruct (js_or data (JArr [])) as [| |b|n|s|sessions|fields];
      cbn [array_map lift ebind catch ret app];
      try (now destruct (hide_flag hideUser)).
    rewrite mapM_total. cbn [ebind catch ret app].
    destruct (_ && _ && _); reflexivity.
  - now destruct (hide_flag hideUser).
Qed.

Lemma live_cards_are_cards (this : JellyfinMS) : Forall is_card (live_cards this).
Proof.
  unfold live_cards. destruct (client this sessions_request) as [data|]; [|constructor].
  destruct (js_or data (JArr [])) as [| | | | |sessions|]; try constructor.
  apply Forall_forall. intros c Hc. apply filter_In in Hc as [Hin Hnn].
  apply in_map_iff in Hin as (s & <- & _).
  destruct (mapSessionToCard_shape s) as [E | H]; [|exact H].
  rewrite E in Hnn. discriminate.
Qed.

Lemma lookup_remove_key_ne (k k' : string) (fields : list (string * JsVal)) :
  k <> k' -> lookup k (remove_key k' fields) = lookup k fields.
Proof.
  intro Hne. induction fields as [|[k0 v] r IH]; [reflexivity|].
  unfold remove_key in *. cbn [filter fst lookup].
  destruct (String.eqb_spec k' k0) as [<-|Hk0]; cbn [negb lookup].
  - rewrite IH. destruct (String.eqb_spec k k'); [contradiction | reflexivity].
  - now rewrite IH.
Qed.

Lemma has_key_remove_key (k : string) (fields : list (string * JsVal)) :
  has_key k (remove_key k fields) = false.
Proof.
  induction fields as [|[k0 v] r IH]; [reflexivity|].
  unfold remove_key, has_key in *. cbn [filter fst].
  destruct (String.eqb_spec k k0) as [<-|Hk0]; cbn [negb existsb fst]; [exact IH|].
  rewrite IH. destruct (String.eqb_spec k k0); [contradiction | reflexivity].
Qed.

Lemma delete_userId_strips (c : JsVal) :
  is_card c -> userId_stripped c (delete_prop c "userId").
Proof.
  intros [f ->]. exists f, (remove_key "userId" f). repeat split.
  - apply has_key_remove_key.
  - intros k Hk. now apply lookup_remove_key_ne.
Qed.

(** C6: with the hide-user flag set ([true] or ['true']) the live cards are,
    one for one, the cards of the same call without the flag, each with no
    [userId] key at all and with every other field unchanged. *)
Theorem hide_user_strips_userId (this : JellyfinMS) (hideUser plain excl : JsVal) :
  hideUser = JBool true \/ hideUser = JStr "true" ->
  hide_flag plain = false ->
  exists cards0 cards1,
    snd (GetNowScreening this plain excl) = Ok (JArr cards0)
    /\ snd (GetNowScreening this hideUser excl) = Ok (JArr cards1)
    /\ Forall2 userId_stripped cards0 cards1
    /\ Forall (fun c => prop c "userId" = JUndefined) cards1.
Proof.
  intros Hh Hp.
  assert (Hf : hide_flag hideUser = true) by (destruct Hh as [-> | ->]; reflexivity).
  rewrite !GetNowScreening_eq, Hf, Hp. cbn [snd].
  exists (live_cards this), (map (fun c => delete_prop c "userId") (live_cards this)).
  repeat split.
  - induction (live_cards_are_cards this) as [|c l Hc _ IH]; cbn [map]; constructor;
      [now apply delete_userId_strips | exact IH].
  - apply Forall_map. eapply Forall_impl; [|apply live_cards_are_cards].
    intros c [f ->]. cbn [delete_prop prop].
    assert (H : has_key "userId" (remove_key "userId" f) = false)
      by apply has_key_remove_key.
    revert H. generalize (remove_key "userId" f). intro g.
    induction g as [|[k v] g IH]; [reflexivity|].
    unfold has_key. cbn [existsb fst lookup].
    destruct (String.eqb "userId" k); cbn [orb]; [discriminate | exact IH].
Qed.

(* =============================================================== *)
(** ** The on-demand pipeline *)

Lemma items_of_ok (data : JsVal) :
  exists items, items_of data = Ok items.
Proof.
  unfold items_of. rewrite and_then_get. cbn [bind].
  destruct (to_boolean (js_and data _)) eqn:E; [|now eexists].
  apply js_and_truthy in E as [Hd _].
  rewrite get_prop_ok by now apply truthy_not_nullish. now eexists.
Qed.

Lemma no_items_ok (items : JsVal) : exists b, no_items items = Ok b.
Proof.
  unfold no_items. destruct (to_boolean items) eqn:E; cbn [negb]; [|now eexists].
  rewrite get_prop_ok by now apply truthy_not_nullish. now eexists.
Qed.

Lemma GetOnDemand_run (this : JellyfinMS) (numberOnDemand : JsVal) :
  exists trace cards,
    GetOnDemand this numberOnDemand = (trace, Ok cards)
    /\ on_demand_run this (onDemandLimit numberOnDemand) trace cards.
Proof.
  unfold GetOnDemand. set (limit := onDemandLimit numberOnDemand).
  destruct (to_boolean (userId this)) eqn:Eu.
  - assert (Hor : to_boolean (js_or (userId this) (JBool true)) = true)
      by (unfold js_or; now rewrite Eu).
    rewrite Hor.
    destruct (encodeURIComponent (userId this)) as [u|e] eqn:Ee;
      cbn [ebind catch ret lift app].
    2:{ do 2 eexists. split; [reflexivity|]. now apply (run_bad_user _ _ e). }
    unfold client_get. fold (resume_request u limit).
    destruct (client this (resume_request u limit)) as [data|] eqn:Ec;
      cbn [ebind catch ret lift app].
    2:{ do 2 eexists. split; [reflexivity|]. now apply (run_resume_failed _ _ u). }
    destruct (items_of_ok data) as [items Hi]. rewrite Hi.
    cbn [ebind catch ret lift app].
    destruct (no_items_ok items) as [b Hb]. rewrite Hb.
    cbn [ebind catch ret lift app andb].
    destruct b; cbn [ebind catch ret lift app andb].
    + fold (latest_request limit).
      destruct (client this (latest_request limit)) as [data2|] eqn:Ec2;
        cbn [ebind catch ret lift app].
      * exists [resume_request u limit; latest_request limit], (latest_cards this limit).
        split; [|now apply (run_resume_empty _ _ u data items)].
        unfold latest_cards, cards_of. rewrite Ec2.
        destruct (items_of data2) as [items2|e]; cbn [ebind catch ret lift app];
          [|reflexivity].
        destruct (array_map _ _) as [cards|e]; reflexivity.
      * exists [resume_request u limit; latest_request limit], (latest_cards this limit).
        split; [|now apply (run_resume_empty _ _ u data items)].
        unfold latest_cards. now rewrite Ec2.
    + exists [resume_request u limit], (cards_of items limit).
      split; [|now apply (run_resume _ _ u data items)].
      unfold cards_of.
      destruct (array_map _ _) as [cards|e]; reflexivity.
  - exists [latest_request limit], (latest_cards this limit).
    split; [|now apply run_no_user].
    cbn [ebind catch ret lift app no_items to_boolean negb get_prop nullish bind].
    change (strict_eq (prop (JArr []) "length") (JInt 0)) with true.
    change (to_boolean (js_or (userId this) (JBool true))) with
      (to_boolean (if to_boolean (userId this) then userId this else JBool true)).
    rewrite Eu. cbn [to_boolean andb].
    unfold latest_cards, cards_of, client_get. fold (latest_request limit).
    destruct (client this (latest_request limit)) as [data2|];
      cbn [ebind catch ret lift app]; [|reflexivity].
    destruct (items_of data2) as [items2|e]; cbn [ebind catch ret lift app];
      [|reflexivity].
    destruct (array_map _ _) as [cards|e]; reflexivity.
Qed.

Lemma cards_of_slice (items : JsVal) (limit : number) :
  exists cards, cards_of items limit = JArr (slice0 cards limit).
Proof.
  unfold cards_of. destruct (array_map _ _) as [cards|e]; [now exists cards|].
  exists []. unfold slice0. now rewrite firstn_nil.
Qed.

Lemma latest_cards_slice (this : JellyfinMS) (limit : number) :
  exists cards, latest_cards this limit = JArr (slice0 cards limit).
Proof.
  assert (E : JArr [] = JArr (slice0 [] limit))
    by (unfold slice0; now rewrite firstn_nil).
  unfold latest_cards. destruct (client this _) as [data|]; [|now exists []].
  destruct (items_of data) as [items|e]; [apply cards_of_slice | now exists []].
Qed.

Lemma on_demand_run_slice (this : JellyfinMS) (limit : number)
      (trace : list request) (result : JsVal) :
  on_demand_run this limit trace result ->
  exists cards, result = JArr (slice0 cards limit).
Proof.
  assert (E : JArr [] = JArr (slice0 [] limit))
    by (unfold slice0; now rewrite firstn_nil).
  intros [ | | | | ];
    try apply latest_cards_slice; try apply cards_of_slice; now exists [].
Qed.

Lemma on_demand_run_params (this : JellyfinMS) (limit : number)
      (trace : list request) (result : JsVal) :
  on_demand_run this limit trace result ->
  forall r, In r trace -> params r = limit_params limit.
Proof.
  intros [ | | | | ] r Hr; cbn [In] in Hr;
    repeat (destruct Hr as [<- | Hr]; [reflexivity|]); contradiction.
Qed.

Lemma on_demand_run_rejected (this : JellyfinMS) (limit : number)
      (trace : list request) (result : JsVal) :
  on_demand_run this limit trace result ->
  forall r, In r trace -> client this r = Rejected -> result = JArr [].
Proof.
  intros [Hu | e Hu He | u Hu He Hc | u data items Hu He Hc Hi Hn
          | u data items Hu He Hc Hi Hn] r Hr Hrej; cbn [In] in Hr.
  - destruct Hr as [<- | []]. unfold latest_cards. now rewrite Hrej.
  - contradiction.
  - reflexivity.
  - destruct Hr as [<- | [<- | []]]; [congruence|].
    unfold latest_cards. now rewrite Hrej.
  - destruct Hr as [<- | []]. congruence.
Qed.

(** C3: neither pipeline raises.  Each returns an array of cards whatever
    the upstream answers, and the empty array when a request it sent
    failed. *)
Theorem pipelines_never_raise (this : JellyfinMS) (hideUser excl count : JsVal) :
  (exists cards, snd (GetNowScreening this hideUser excl) = Ok (JArr cards))
  /\ (client this sessions_request = Rejected ->
      snd (GetNowScreening this hideUser excl) = Ok (JArr []))
  /\ (exists cards, snd (GetOnDemand this count) = Ok (JArr cards))
  /\ (forall r : request,
         In r (fst (GetOnDemand this count)) -> client this r = Rejected ->
         snd (GetOnDemand this count) = Ok (JArr [])).
Proof.
  rewrite GetNowScreening_eq. cbn [snd].
  destruct (GetOnDemand_run this count) as (trace & result & -> & Hrun). cbn [fst snd].
  split; [now eexists|]. split; [|split].
  - intro Hrej. unfold live_cards. rewrite Hrej. now destruct (hide_flag hideUser).
  - destruct (on_demand_run_slice _ _ _ _ Hrun) as [cards ->]. now eexists.
  - intros r Hr Hrej. f_equal. exact (on_demand_run_rejected _ _ _ _ Hrun r Hr Hrej).
Qed.

(* =============================================================== *)
(** ** The limit *)

Lemma Qtrunc_nonneg (q : Q) : 0 <= q -> Qtrunc q = Qfloor q.
Proof.
  destruct q as [n d]. unfold Qle, Qtrunc. cbn. intro H.
  apply Z.quot_div_nonneg; lia.
Qed.

Lemma slice0_length (l : list JsVal) (q : Q) :
  0 <= q -> inject_Z (Z.of_nat (List.length (slice0 l (Fin q)))) <= q.
Proof.
  intro Hq. apply Qle_trans with (inject_Z (Qfloor q)); [|apply Qfloor_le].
  rewrite <- Zle_Qle. unfold slice0. rewrite (Qtrunc_nonneg q Hq).
  assert (H0 : (0 <= Qfloor q)%Z).
  { change 0%Z with (Qfloor 0). now apply Qfloor_resp_le. }
  destruct (Z.ltb_spec (Qfloor q) 0) as [Hneg|_]; [lia|].
  pose proof (firstn_le_length
                (Z.to_nat (Z.min (Qfloor q) (Z.of_nat (List.length l)))) l) as Hl.
  lia.
Qed.

Lemma math_min_200 (x : number) (q : Q) :
  math_min (num_of_Z 200) x = Fin q -> q <= 200.
Proof.
  unfold math_min, num_of_Z.
  destruct x as [| | |p]; cbn [num_ltb]; try discriminate.
  - intros [= <-]. apply Qle_refl.
  - destruct (Qlt_le_dec p (inject_Z 200)) as [Hlt|Hle]; intros [= <-].
    + now apply Qlt_le_weak.
    + apply Qle_refl.
Qed.

Lemma onDemandLimit_finite (count : JsVal) (q : Q) :
  count <> JUndefined -> to_number count = Fin q -> ~ q == 0 ->
  (q < 200 -> onDemandLimit count = Fin q)
  /\ (200 <= q -> onDemandLimit count = num_of_Z 200).
Proof.
  intros Hc Hn Hq. unfold onDemandLimit.
  replace (default_arg count (JInt 20)) with count by (now destruct count).
  rewrite Hn. cbn [num_truthy]. apply Qis_zero_false in Hq. rewrite Hq. cbn [negb].
  unfold math_min, num_of_Z. cbn [num_ltb].
  destruct (Qlt_le_dec q (inject_Z 200)) as [Hlt|Hle]; split; intro H; try reflexivity.
  - exfalso. exact (Qlt_not_le _ _ Hlt H).
  - exfalso. exact (Qlt_not_le _ _ H Hle).
Qed.

Lemma onDemandLimit_falsy (count : JsVal) :
  count <> JUndefined -> num_truthy (to_number count) = false ->
  onDemandLimit count = num_of_Z 30.
Proof.
  intros Hc Hn. unfold onDemandLimit.
  replace (default_arg count (JInt 20)) with count by (now destruct count).
  now rewrite Hn.
Qed.

(** C1, as the code has it: the limit is [Math.min(200, n)], where [n] is
    [Number(count)] when that is a number other than zero and 30 when it
    is zero or [NaN]; a count left out is 20; nothing clamps the limit from
    below.  Every request carries this limit, and when the limit is not
    negative the pipeline returns no more cards than the limit, which is at
    most 200. *)
Theorem onDemand_limit_by_design (this : JellyfinMS) (count : JsVal) :
  let limit := onDemandLimit count in
  (count = JUndefined -> limit = num_of_Z 20)
  /\ (count <> JUndefined -> num_truthy (to_number count) = false ->
      limit = num_of_Z 30)
  /\ (forall q : Q,
         count <> JUndefined -> to_number count = Fin q -> ~ q == 0 ->
         (q < 200 -> limit = Fin q) /\ (200 <= q -> limit = num_of_Z 200))
  /\ (forall r : request,
         In r (fst (GetOnDemand this count)) -> params r = limit_params limit)
  /\ (exists cards,
         snd (GetOnDemand this count) = Ok (JArr cards)
         /\ forall q : Q,
             limit = Fin q -> 0 <= q ->
             inject_Z (Z.of_nat (List.length cards)) <= q /\ q <= 200).
Proof.
  intro limit. split; [|split; [|split; [|split]]].
  - intros ->. reflexivity.
  - apply onDemandLimit_falsy.
  - intro q. apply onDemandLimit_finite.
  - destruct (GetOnDemand_run this count) as (trace & result & -> & Hrun). cbn [fst].
    exact (on_demand_run_params _ _ _ _ Hrun).
  - destruct (GetOnDemand_run this count) as (trace & result & -> & Hrun). cbn [snd].
    destruct (on_demand_run_slice _ _ _ _ Hrun) as [cards ->].
    exists (slice0 cards (onDemandLimit count)). split; [reflexivity|].
    intros q Hl Hq. fold limit. rewrite Hl. split; [now apply slice0_length|].
    unfold limit, onDemandLimit in Hl. exact (math_min_200 _ _ Hl).
Qed.

(** C2, as the code has it: when no user is configured, or when the resume
    request succeeds with no items, the pipeline requests the recently-added
    items and returns them, mapped and truncated, and nothing of the resume
    source; when the resume request itself fails, the pipeline returns the
    empty array and does not request the recently-added items. *)
Theorem onDemand_fallback (this : JellyfinMS) (count : JsVal) :
  let limit := onDemandLimit count in
  (to_boolean (userId this) = false ->
   GetOnDemand this count = ([latest_request limit], Ok (latest_cards this limit)))
  /\ (forall (u : string) (data : JsVal),
         to_boolean (userId this) = true ->
         encodeURIComponent (userId this) = Ok u ->
         client this (resume_request u limit) = Resolved data ->
         items_of data = Ok (JArr []) ->
         GetOnDemand this count
         = ([resume_request u limit; latest_request limit],
            Ok (latest_cards this limit)))
  /\ (forall u : string,
         to_boolean (userId this) = true ->
         encodeURIComponent (userId this) = Ok u ->
         client this (resume_request u limit) = Rejected ->
         GetOnDemand this count = ([resume_request u limit], Ok (JArr []))).
Proof.
  intro limit.
  destruct (GetOnDemand_run this count) as (trace & result & -> & Hrun).
  fold limit in Hrun. split; [|split].
  - intro Hu. inversion Hrun; subst; try congruence.
  - intros u data Hu He Hc Hi. inversion Hrun; subst; try congruence.
    assert (u0 = u) by congruence. subst u0.
    assert (data0 = data) by congruence. subst data0.
    assert (items = JArr []) by congruence. subst items. discriminate.
  - intros u Hu He Hc. inversion Hrun; subst; congruence.
Qed.
(* =============================================================== *)
(** ** Strings as byte lists *)

Lemma str_bytes_app (a b : string) :
  str_bytes (a ++ b) = (str_bytes a ++ str_bytes b)%list.
Proof.
  unfold str_bytes. induction a as [|c a IH]; cbn; [reflexivity | now f_equal].
Qed.

Lemma str_bytes_str (l : list ascii) : str_bytes (bytes_str l) = l.
Proof. apply list_ascii_of_string_of_list_ascii. Qed.

Lemma bytes_str_bytes (s : string) : bytes_str (str_bytes s) = s.
Proof. apply string_of_list_ascii_of_string. Qed.

Lemma str_bytes_inj (a b : string) : str_bytes a = str_bytes b -> a = b.
Proof. intro H. rewrite <- (bytes_str_bytes a), <- (bytes_str_bytes b). now rewrite H. Qed.

Lemma append_inv_tail (a b r : string) : a ++ r = b ++ r -> a = b.
Proof.
  intro H. apply str_bytes_inj. apply (f_equal str_bytes) in H.
  rewrite !str_bytes_app in H. now apply app_inv_tail in H.
Qed.

(* =============================================================== *)
(** ** The constructor *)

Lemma strip_trailing_slash_with (t : string) : strip_trailing_slash (t ++ "/") = t.
Proof.
  unfold strip_trailing_slash. rewrite str_bytes_app, rev_app_distr. cbn.
  now rewrite rev_involutive, bytes_str_bytes.
Qed.

Lemma strip_trailing_slash_without (s : string) :
  (forall t, s <> t ++ "/") -> strip_trailing_slash s = s.
Proof.
  intro H. unfold strip_trailing_slash.
  destruct (rev (str_bytes s)) as [|c r] eqn:E; [reflexivity|].
  destruct (Ascii.eqb_spec c "/") as [->|_]; [|reflexivity].
  exfalso. apply (H (bytes_str (rev r))). apply str_bytes_inj.
  rewrite str_bytes_app, str_bytes_str. cbn.
  rewrite <- (rev_involutive (str_bytes s)), E. reflexivity.
Qed.

Lemma constructor_object (opts : JsVal) :
  opts <> JNull ->
  let o := default_arg opts (JObj []) in
  nullish o = false.
Proof. intro H. destruct opts; try reflexivity. contradiction. Qed.

(** X1: [new JellyfinMS(opts)] raises the configuration error when the URL or
    the key is missing or falsy, a TypeError when [opts] is [null] or the URL
    is a truthy value that is not a string, and otherwise yields the instance:
    the URL without one trailing slash, the key as it is, and [null], [null]
    and [false] in place of a falsy user id, library list and art flag. *)
Theorem constructor_outcomes (opts : JsVal) :
  let o := default_arg opts (JObj []) in
  let url := prop o "jellyfinUrl" in
  let key := prop o "jellyfinApiKey" in
  (opts = JNull -> JellyfinMS_constructor opts = Raised TypeError)
  /\ (opts <> JNull -> to_boolean url = false \/ to_boolean key = false ->
      JellyfinMS_constructor opts = ConfigError config_message)
  /\ (opts <> JNull -> to_boolean url = true -> to_boolean key = true ->
      (forall s, url <> JStr s) ->
      JellyfinMS_constructor opts = Raised TypeError)
  /\ (forall s : string,
         opts <> JNull -> url = JStr s -> s <> "" -> to_boolean key = true ->
         JellyfinMS_constructor opts
         = Constructed
             (mk_Instance (strip_trailing_slash s) key
                (js_or (prop o "userId") JNull)
                (js_or (prop o "libraries") JNull)
                (js_or (prop o "hasArt") (JBool false)))).
Proof.
  intros o url key. split; [|split; [|split]].
  - intros ->. reflexivity.
  - intros Hn Hf. pose proof (constructor_object opts Hn) as Ho. fold o in Ho.
    unfold JellyfinMS_constructor. fold o.
    rewrite !(get_prop_ok o) by exact Ho. cbn [bind]. fold url key.
    destruct (to_boolean url) eqn:Eu; cbn [negb]; [|reflexivity].
    destruct Hf as [Hf | Hf]; [discriminate|]. now rewrite Hf.
  - intros Hn Hu Hk Hs. pose proof (constructor_object opts Hn) as Ho. fold o in Ho.
    unfold JellyfinMS_constructor. fold o.
    rewrite !(get_prop_ok o) by exact Ho. cbn [bind]. fold url key.
    rewrite Hu, Hk. cbn [negb bind].
    destruct url; try reflexivity. now destruct (Hs s).
  - intros s Hn Hu Hs Hk. pose proof (constructor_object opts Hn) as Ho. fold o in Ho.
    unfold JellyfinMS_constructor. fold o.
    rewrite !(get_prop_ok o), !(field_or_ok o) by exact Ho. cbn [bind]. fold url key.
    rewrite Hk, Hu. cbn [to_boolean].
    destruct (String.eqb_spec s "") as [E|_]; [contradiction|]. reflexivity.
Qed.

Lemma constructor_inv (opts : JsVal) (i : Instance) :
  JellyfinMS_constructor opts = Constructed i ->
  let o := default_arg opts (JObj []) in
  exists s,
    prop o "jellyfinUrl" = JStr s /\ s <> ""
    /\ to_boolean (prop o "jellyfinApiKey") = true
    /\ i = mk_Instance (strip_trailing_slash s) (prop o "jellyfinApiKey")
             (js_or (prop o "userId") JNull)
             (js_or (prop o "libraries") JNull)
             (js_or (prop o "hasArt") (JBool false)).
Proof.
  intros H o.
  destruct (nullish o) eqn:Ho.
  { unfold JellyfinMS_constructor in H. fold o in H. unfold get_prop in H.
    rewrite Ho in H. discriminate. }
  unfold JellyfinMS_constructor in H. fold o in H.
  rewrite !(get_prop_ok o), !(field_or_ok o) in H by exact Ho. cbn [bind] in H.
  destruct (to_boolean (prop o "jellyfinUrl")) eqn:Eu; cbn [negb] in H; [|discriminate].
  destruct (to_boolean (prop o "jellyfinApiKey")) eqn:Ek; cbn [negb] in H; [|discriminate].
  destruct (prop o "jellyfinUrl") as [| | | |s| |] eqn:Es; try discriminate.
  exists s. cbn [replace_trailing_slash bind] in H.
  repeat split; try congruence.
  intros ->. discriminate.
Qed.

(** X2: the base URL of an instance is the configured URL without its last
    character when that is a slash, and the configured URL otherwise: one
    trailing slash is removed, never two. *)
Theorem constructor_base (opts : JsVal) (i : Instance) :
  JellyfinMS_constructor opts = Constructed i ->
  exists s,
    prop (default_arg opts (JObj [])) "jellyfinUrl" = JStr s
    /\ (forall t, s = t ++ "/" -> i_base i = t)
    /\ ((forall t, s <> t ++ "/") -> i_base i = s).
Proof.
  intro H. destruct (constructor_inv opts i H) as (s & Hs & _ & _ & ->).
  exists s. cbn [i_base]. split; [exact Hs | split].
  - intros t ->. apply strip_trailing_slash_with.
  - apply strip_trailing_slash_without.
Qed.

Lemma GetOnDemand_no_user (this : JellyfinMS) (count : JsVal) :
  to_boolean (userId this) = false ->
  GetOnDemand this count
  = ([latest_request (onDemandLimit count)],
     Ok (latest_cards this (onDemandLimit count))).
Proof.
  intro Hu. destruct (GetOnDemand_run this count) as (trace & result & -> & Hrun).
  inversion Hrun; subst; congruence.
Qed.

(** X3: an instance constructed without a user id, or with a falsy one, has
    the user id [null], and an adapter with that user id sends one request
    per call of [GetOnDemand], for the recently-added items; it never asks
    for a resume list. *)
Theorem constructor_without_user (opts : JsVal) (i : Instance)
        (this : JellyfinMS) (count : JsVal) :
  JellyfinMS_constructor opts = Constructed i ->
  to_boolean (prop (default_arg opts (JObj [])) "userId") = false ->
  userId this = i_userId i ->
  i_userId i = JNull
  /\ GetOnDemand this count
     = ([latest_request (onDemandLimit count)],
        Ok (latest_cards this (onDemandLimit count))).
Proof.
  intros Hc Hu Ht. destruct (constructor_inv opts i Hc) as (s & _ & _ & _ & ->).
  cbn [i_userId] in *. unfold js_or in *. rewrite Hu in *.
  split; [reflexivity|]. apply GetOnDemand_no_user. now rewrite Ht.
Qed.

(* =============================================================== *)
(** ** Percent encoding *)

Lemma encodeURIComponent_cases (v : JsVal) :
  (has_lone_surrogate (str_bytes (to_string v)) = true
   /\ encodeURIComponent v = Throw URIError)
  \/ (has_lone_surrogate (str_bytes (to_string v)) = false
      /\ encodeURIComponent v = Ok (encoded_id v)).
Proof.
  unfold encodeURIComponent, encoded_id, uri_encode_bytes.
  destruct (has_lone_surrogate _); [left | right]; now split.
Qed.

Lemma percent_byte_safe (c : ascii) : forallb uri_safe (percent_byte c) = true.
Proof. destruct c as [[] [] [] [] [] [] [] []]; reflexivity. Qed.

Lemma uri_encode_bytes_safe (l : list ascii) :
  forallb uri_safe (uri_encode_bytes l) = true.
Proof.
  induction l as [|c l IH]; [reflexivity|].
  unfold uri_encode_bytes in *. cbn [flat_map]. rewrite forallb_app, IH, andb_true_r.
  destruct (uri_unreserved c) eqn:E; [|apply percent_byte_safe].
  cbn [forallb]. unfold uri_safe. now rewrite E.
Qed.

Lemma encoded_bytes_safe (v : JsVal) (s : string) (c : ascii) :
  encodeURIComponent v = Ok s -> In c (str_bytes s) -> uri_safe c = true.
Proof.
  intros He Hc. destruct (encodeURIComponent_cases v) as [[_ E] | [_ E]];
    rewrite E in He; [discriminate|].
  injection He as <-. unfold encoded_id in Hc. rewrite str_bytes_str in Hc.
  pose proof (uri_encode_bytes_safe (str_bytes (to_string v))) as H.
  rewrite forallb_forall in H. now apply H.
Qed.

Lemma uri_unreserved_not_percent (c : ascii) : uri_unreserved c = true -> c <> "%"%char.
Proof. intros H ->. discriminate. Qed.

Lemma hex_digit_inj (a b : N) :
  (a < 16)%N -> (b < 16)%N -> hex_digit a = hex_digit b -> a = b.
Proof.
  intros Ha Hb H. apply (f_equal N_of_ascii) in H. unfold hex_digit in H.
  destruct (N.ltb_spec a 10), (N.ltb_spec b 10);
    rewrite !N_ascii_embedding in H by lia; lia.
Qed.

Lemma percent_byte_inj (c d : ascii) : percent_byte c = percent_byte d -> c = d.
Proof.
  unfold percent_byte, byte_of. intro H. injection H as Hhi Hlo.
  pose proof (N_ascii_bounded c) as Bc. pose proof (N_ascii_bounded d) as Bd.
  assert (Hq : (N_of_ascii c / 16 = N_of_ascii d / 16)%N).
  { apply hex_digit_inj; [| |exact Hhi]; apply N.Div0.div_lt_upper_bound; lia. }
  assert (Hr : (N_of_ascii c mod 16 = N_of_ascii d mod 16)%N).
  { apply hex_digit_inj; [| |exact Hlo]; apply N.mod_lt; lia. }
  rewrite <- (ascii_N_embedding c), <- (ascii_N_embedding d). f_equal.
  rewrite (N.div_mod (N_of_ascii c) 16), (N.div_mod (N_of_ascii d) 16) by lia.
  now rewrite Hq, Hr.
Qed.

Lemma uri_encode_bytes_inj (l m : list ascii) :
  uri_encode_bytes l = uri_encode_bytes m -> l = m.
Proof.
  revert m. induction l as [|c l IH]; intros [|d m] H.
  - reflexivity.
  - exfalso. unfold uri_encode_bytes in H. cbn [flat_map] in H.
    destruct (uri_unreserved d); discriminate.
  - exfalso. unfold uri_encode_bytes in H. cbn [flat_map] in H.
    destruct (uri_unreserved c); discriminate.
  - unfold uri_encode_bytes in H. cbn [flat_map] in H.
    fold (uri_encode_bytes l) in H. fold (uri_encode_bytes m) in H.
    destruct (uri_unreserved c) eqn:Ec, (uri_unreserved d) eqn:Ed.
    + injection H as -> H. f_equal. now apply IH.
    + exfalso. unfold percent_byte in H. injection H as E _.
      now apply (uri_unreserved_not_percent c).
    + exfalso. unfold percent_byte in H. injection H as E _.
      now apply (uri_unreserved_not_percent d).
    + unfold percent_byte in H. cbn [app] in H.
      injection H as Hhi Hlo H.
      assert (c = d) by (apply percent_byte_inj; unfold percent_byte; congruence).
      subst d. f_equal. now apply IH.
Qed.

Lemma append_empty (s : string) : s ++ "" = s.
Proof. induction s as [|c s IH]; cbn; [reflexivity | now rewrite IH]. Qed.

(** X4: without a size hint, or with the same one, two item ids that print
    differently never get the same image reference of a kind. *)
Theorem imageUrl_injective (a b kind maxWidth : JsVal) (u : string) :
  _imageUrl a kind maxWidth = Ok u ->
  _imageUrl b kind maxWidth = Ok u ->
  to_string a = to_string b.
Proof.
  unfold _imageUrl. intros Ha Hb.
  destruct (encodeURIComponent_cases a) as [[_ Ea] | [_ Ea]]; rewrite Ea in Ha;
    [discriminate|].
  destruct (encodeURIComponent_cases b) as [[_ Eb] | [_ Eb]]; rewrite Eb in Hb;
    [discriminate|].
  cbn [bind] in Ha, Hb.
  destruct (encodeURIComponent (default_arg kind (JStr "Primary"))) as [ty|e];
    cbn [bind] in Ha, Hb; [|discriminate].
  injection Ha as Ha. injection Hb as Hb. rewrite <- Hb in Ha.
  cbn [append] in Ha.
  repeat match type of Ha with String _ _ = String _ _ => injection Ha as Ha end.
  apply append_inv_tail in Ha.
  unfold encoded_id in Ha. apply (f_equal str_bytes) in Ha.
  rewrite !str_bytes_str in Ha. now apply uri_encode_bytes_inj, str_bytes_inj in Ha.
Qed.

(** X5: an image reference is the proxy path [/jellyfin/image/], the encoded
    item id, [?type=] and the encoded kind, and no byte of the encoded id is
    a slash, a question mark, an ampersand, a hash, an equals sign or a
    space: the id cannot change the route or add a parameter. *)
Theorem imageUrl_id_is_one_segment (id kind : JsVal) (u : string) :
  _imageUrl id kind JUndefined = Ok u ->
  exists e k,
    encodeURIComponent id = Ok e
    /\ encodeURIComponent (default_arg kind (JStr "Primary")) = Ok k
    /\ u = "/jellyfin/image/" ++ e ++ "?type=" ++ k
    /\ forall c, In c (str_bytes e) ->
         uri_safe c = true
         /\ c <> "/"%char /\ c <> "?"%char /\ c <> "&"%char /\ c <> "#"%char
         /\ c <> "="%char /\ c <> " "%char.
Proof.
  unfold _imageUrl. intro H.
  destruct (encodeURIComponent id) as [e|x] eqn:Ee; cbn [bind] in H; [|discriminate].
  destruct (encodeURIComponent (default_arg kind (JStr "Primary"))) as [k|x] eqn:Ek;
    cbn [bind] in H; [|discriminate].
  exists e, k. repeat split.
  - cbn [to_boolean] in H. rewrite append_empty in H. congruence.
  - exact (encoded_bytes_safe id e c Ee H0).
  - intros ->. apply (encoded_bytes_safe id e _ Ee) in H0. discriminate.
  - intros ->. apply (encoded_bytes_safe id e _ Ee) in H0. discriminate.
  - intros ->. apply (encoded_bytes_safe id e _ Ee) in H0. discriminate.
  - intros ->. apply (encoded_bytes_safe id e _ Ee) in H0. discriminate.
  - intros ->. apply (encoded_bytes_safe id e _ Ee) in H0. discriminate.
  - intros ->. apply (encoded_bytes_safe id e _ Ee) in H0. discriminate.
Qed.

(* =============================================================== *)
(** ** The fields of a card *)

Lemma image_or_null_cases (id : JsVal) (kind : string) :
  encodeURIComponent (JStr kind) = Ok kind ->
  (to_boolean id = false /\ image_or_null id kind = Ok JNull)
  \/ (to_boolean id = true
      /\ has_lone_surrogate (str_bytes (to_string id)) = true
      /\ image_or_null id kind = Throw URIError)
  \/ (to_boolean id = true
      /\ has_lone_surrogate (str_bytes (to_string id)) = false
      /\ image_or_null id kind = Ok (JStr (image_ref id kind))).
Proof.
  intro Hk. unfold image_or_null, _imageUrl.
  destruct (to_boolean id) eqn:Ei; [right | now left].
  cbn [default_arg to_boolean]. rewrite Hk.
  destruct (encodeURIComponent_cases id) as [[Hl E] | [Hl E]]; rewrite E; cbn [bind].
  - left. now repeat split.
  - right. repeat split; try assumption. unfold image_ref. now rewrite append_empty.
Qed.

Lemma mapSessionToCard_full_inv (session c : JsVal) :
  _mapSessionToCard session = c -> c <> JNull ->
  nullish session = false
  /\ exists mediaType posterUrl backdropUrl,
      toLowerCase (js_or (prop (item_of session) "Type") (JStr "")) = Ok mediaType
      /\ image_or_null (prop (item_of session) "Id") "Primary" = Ok posterUrl
      /\ image_or_null (prop (item_of session) "Id") "Backdrop" = Ok backdropUrl
      /\ c = JObj (session_fields session mediaType posterUrl backdropUrl).
Proof.
  intros Hc Hnn. unfold _mapSessionToCard, item_of in *.
  destruct (nullish session) eqn:Hs.
  - rewrite session_card_nullish in Hc by exact Hs. now subst c.
  - split; [reflexivity|]. rewrite session_card_eq in Hc by exact Hs.
    destruct (toLowerCase _) as [mediaType|e]; cbn [bind try_catch] in Hc;
      [|now subst c].
    destruct (image_or_null _ "Primary") as [posterUrl|e]; cbn [bind try_catch] in Hc;
      [|now subst c].
    destruct (image_or_null _ "Backdrop") as [backdropUrl|e]; cbn [bind try_catch] in Hc;
      [|now subst c].
    exists mediaType, posterUrl, backdropUrl. now repeat split.
Qed.

Lemma mapItemToCard_full_inv (it c : JsVal) :
  mapItemToCard it = Ok c ->
  nullish it = false
  /\ exists mediaType posterUrl backdropUrl,
      toLowerCase (js_or (prop it "Type") (JStr "")) = Ok mediaType
      /\ image_or_null (prop it "Id") "Primary" = Ok posterUrl
      /\ image_or_null (prop it "Id") "Backdrop" = Ok backdropUrl
      /\ c = JObj (item_fields it mediaType posterUrl backdropUrl).
Proof.
  intro Hc. destruct (nullish it) eqn:Hs.
  - now rewrite mapItemToCard_nullish in Hc.
  - split; [reflexivity|]. rewrite mapItemToCard_eq in Hc by exact Hs.
    destruct (toLowerCase _) as [mediaType|e]; cbn [bind] in Hc; [|discriminate].
    destruct (image_or_null _ "Primary") as [posterUrl|e]; cbn [bind] in Hc; [|discriminate].
    destruct (image_or_null _ "Backdrop") as [backdropUrl|e]; cbn [bind] in Hc; [|discriminate].
    exists mediaType, posterUrl, backdropUrl. repeat split. congruence.
Qed.

Lemma truthy_defined (v : JsVal) : to_boolean v = true -> v <> JUndefined.
Proof. intros H ->. discriminate. Qed.

Lemma js_or_defined (a d : JsVal) : d <> JUndefined -> js_or a d <> JUndefined.
Proof.
  intro Hd. unfold js_or. destruct (to_boolean a) eqn:E; [now apply truthy_defined | exact Hd].
Qed.

Lemma ticksToMs_defined (v : JsVal) : _ticksToMs v <> JUndefined.
Proof.
  unfold _ticksToMs. destruct (negb _ && negb _); [discriminate|].
  destruct (is_NaN _); discriminate.
Qed.

Lemma percent_defined (r p : JsVal) : percent r p <> JUndefined.
Proof. unfold percent. destruct (to_boolean _); discriminate. Qed.

Lemma theme_of_defined (t : JsVal) : theme_of t <> JUndefined.
Proof. unfold theme_of. destruct (strict_eq _ _); [|destruct (strict_eq _ _)]; discriminate. Qed.

Lemma runtime_val_defined (item : JsVal) : runtime_val item <> JUndefined.
Proof.
  unfold runtime_val. destruct (to_boolean _); [apply ticksToMs_defined|].
  apply js_or_defined. discriminate.
Qed.

Lemma position_val_defined (ps : JsVal) : position_val ps <> JUndefined.
Proof.
  unfold position_val. apply js_or_defined.
  destruct (nullish (prop ps "Position")) eqn:E; cbn [negb]; [discriminate|].
  intros H. rewrite H in E. discriminate.
Qed.

Lemma resume_val_defined (it : JsVal) : resume_val it <> JUndefined.
Proof.
  unfold resume_val. destruct (to_boolean (js_and _ (prop _ "PlaybackPositionTicks")));
    [apply ticksToMs_defined|].
  destruct (to_boolean (js_and _ (js_and _ _))) eqn:E; [|discriminate].
  apply js_and_truthy in E as [_ E]. apply js_and_truthy in E as [_ E].
  now apply truthy_defined.
Qed.

Lemma last_played_val_defined (it : JsVal) : last_played_val it <> JUndefined.
Proof.
  unfold last_played_val. destruct (to_boolean (js_and _ _)) eqn:E; [|discriminate].
  apply js_and_truthy in E as [_ E]. now apply truthy_defined.
Qed.

Lemma toLowerCase_string (v m : JsVal) : toLowerCase v = Ok m -> exists s, m = JStr s.
Proof. destruct v; cbn; intro H; try discriminate. injection H as <-. now eexists. Qed.

Lemma image_or_null_defined (id : JsVal) (kind : string) (u : JsVal) :
  image_or_null id kind = Ok u -> u <> JUndefined.
Proof.
  unfold image_or_null. destruct (to_boolean id); [|intros [= <-]; discriminate].
  destruct (_imageUrl _ _ _); cbn [bind]; intros [= <-]; discriminate.
Qed.

(** X6: a session card has the twenty keys of the mapper, in its order, and
    none of its fields is [undefined]; its [progress] is its
    [progressPercent]. *)
Theorem session_card_fields (session c : JsVal) :
  _mapSessionToCard session = c -> c <> JNull ->
  keys_of c = session_card_keys
  /\ all_defined c
  /\ prop c "progress" = prop c "progressPercent".
Proof.
  intros Hc Hnn.
  destruct (mapSessionToCard_full_inv session c Hc Hnn)
    as (Hs & m & p & b & Hm & Hp & Hb & ->).
  split; [reflexivity | split; [|reflexivity]].
  destruct (toLowerCase_string _ _ Hm) as [ms ->].
  apply image_or_null_defined in Hp, Hb.
  cbn [all_defined]. unfold session_fields.
  repeat (apply Forall_cons || apply Forall_nil); cbn [snd];
    try (apply js_or_defined; discriminate);
    try apply runtime_val_defined; try apply position_val_defined;
    try apply percent_defined; try apply theme_of_defined;
    try assumption; try discriminate.
  intros ->. discriminate.
Qed.

(** X7: an item card has the fifteen keys of the mapper, in its order, and
    none of its fields is [undefined]. *)
Theorem item_card_fields (it c : JsVal) :
  mapItemToCard it = Ok c ->
  keys_of c = item_card_keys /\ all_defined c.
Proof.
  intro Hc.
  destruct (mapItemToCard_full_inv it c Hc) as (Hs & m & p & b & Hm & Hp & Hb & ->).
  split; [reflexivity|].
  destruct (toLowerCase_string _ _ Hm) as [ms ->].
  apply image_or_null_defined in Hp, Hb.
  cbn [all_defined]. unfold item_fields.
  repeat (apply Forall_cons || apply Forall_nil); cbn [snd];
    try (apply js_or_defined; discriminate);
    try apply runtime_val_defined; try apply resume_val_defined;
    try apply last_played_val_defined;
    try apply percent_defined; try apply theme_of_defined;
    try assumption; try discriminate.
  intros ->. discriminate.
Qed.

Lemma encode_kind_Primary : encodeURIComponent (JStr "Primary") = Ok "Primary".
Proof. reflexivity. Qed.

Lemma encode_kind_Backdrop : encodeURIComponent (JStr "Backdrop") = Ok "Backdrop".
Proof. reflexivity. Qed.

Lemma js_or_null_truthy (a : JsVal) : to_boolean a = true -> js_or a JNull = a.
Proof. unfold js_or. now intros ->. Qed.

Lemma js_or_null_falsy (a : JsVal) : to_boolean a = false -> js_or a JNull = JNull.
Proof. unfold js_or. now intros ->. Qed.

Lemma images_of_id (id poster backdrop : JsVal) :
  image_or_null id "Primary" = Ok poster ->
  image_or_null id "Backdrop" = Ok backdrop ->
  (js_or id JNull = JNull <-> poster = JNull)
  /\ (poster = JNull <-> backdrop = JNull)
  /\ (js_or id JNull <> JNull ->
      poster = JStr (image_ref (js_or id JNull) "Primary")
      /\ backdrop = JStr (image_ref (js_or id JNull) "Backdrop")).
Proof.
  intros Hp Hb.
  destruct (image_or_null_cases id "Primary" encode_kind_Primary)
    as [[Hf E] | [(_ & _ & E) | (Ht & _ & E)]]; rewrite E in Hp; try discriminate;
    injection Hp as <-.
  - destruct (image_or_null_cases id "Backdrop" encode_kind_Backdrop)
      as [[_ E'] | [(Ht & _ & _) | (Ht & _ & _)]]; try congruence.
    rewrite E' in Hb. injection Hb as <-.
    rewrite (js_or_null_falsy id Hf). repeat split; congruence.
  - destruct (image_or_null_cases id "Backdrop" encode_kind_Backdrop)
      as [[Hf _] | [(_ & _ & E') | (_ & _ & E')]]; try congruence.
    rewrite E' in Hb. injection Hb as <-.
    rewrite (js_or_null_truthy id Ht).
    assert (Hid : id <> JNull) by (intros ->; discriminate).
    repeat split; try congruence; try discriminate; intro H; discriminate.
Qed.

(** X8: in every card of either mapper the item id is [null] exactly when the
    poster reference is, and the poster reference is [null] exactly when the
    backdrop reference is; when the item id is there, the two references are
    the proxy paths of that id, of kind [Primary] and [Backdrop]. *)
Theorem card_images_follow_item_id :
  (forall session c : JsVal,
      _mapSessionToCard session = c -> c <> JNull ->
      (prop c "itemId" = JNull <-> prop c "posterUrl" = JNull)
      /\ (prop c "posterUrl" = JNull <-> prop c "backdropUrl" = JNull)
      /\ (prop c "itemId" <> JNull ->
          prop c "posterUrl" = JStr (image_ref (prop c "itemId") "Primary")
          /\ prop c "backdropUrl" = JStr (image_ref (prop c "itemId") "Backdrop")))
  /\ (forall it c : JsVal,
         mapItemToCard it = Ok c ->
         (prop c "itemId" = JNull <-> prop c "posterUrl" = JNull)
         /\ (prop c "posterUrl" = JNull <-> prop c "backdropUrl" = JNull)
         /\ (prop c "itemId" <> JNull ->
             prop c "posterUrl" = JStr (image_ref (prop c "itemId") "Primary")
             /\ prop c "backdropUrl" = JStr (image_ref (prop c "itemId") "Backdrop"))).
Proof.
  split.
  - intros session c Hc Hnn.
    destruct (mapSessionToCard_full_inv session c Hc Hnn)
      as (_ & m & p & b & _ & Hp & Hb & ->).
    exact (images_of_id _ p b Hp Hb).
  - intros it c Hc.
    destruct (mapItemToCard_full_inv it c Hc) as (_ & m & p & b & _ & Hp & Hb & ->).
    exact (images_of_id _ p b Hp Hb).
Qed.

Lemma toLowerCase_throws (type : JsVal) :
  (exists e, toLowerCase (js_or type (JStr "")) = Throw e)
  <-> to_boolean type = true /\ forall s, type <> JStr s.
Proof.
  unfold js_or. destruct (to_boolean type) eqn:Et.
  - split.
    + intros [e H]. split; [reflexivity|]. intros s ->. discriminate.
    + intros [_ H]. destruct type; try (now eexists). now destruct (H s).
  - split; [intros [e H]; discriminate | intros [H _]; discriminate].
Qed.

Lemma image_or_null_throws (id : JsVal) (kind : string) :
  encodeURIComponent (JStr kind) = Ok kind ->
  (exists e, image_or_null id kind = Throw e)
  <-> to_boolean id = true /\ has_lone_surrogate (str_bytes (to_string id)) = true.
Proof.
  intro Hk.
  destruct (image_or_null_cases id kind Hk) as [[Hf E] | [(Ht & Hl & E) | (Ht & Hl & E)]];
    rewrite E; split.
  - intros [e H]. discriminate.
  - intros [H _]. congruence.
  - intros _. now split.
  - intros _. now eexists.
  - intros [e H]. discriminate.
  - intros [_ H]. congruence.
Qed.

(** X9: the session mapper returns [null] exactly when the session is [null]
    or [undefined], or the [Type] of its now-playing item is a truthy value
    that is not a string, or the [Id] of that item is truthy and prints with a
    lone surrogate. *)
Theorem mapSessionToCard_null_iff (session : JsVal) :
  _mapSessionToCard session = JNull
  <-> nullish session = true
      \/ (to_boolean (prop (item_of session) "Type") = true
          /\ forall s, prop (item_of session) "Type" <> JStr s)
      \/ (to_boolean (prop (item_of session) "Id") = true
          /\ has_lone_surrogate (str_bytes (to_string (prop (item_of session) "Id")))
             = true).
Proof.
  destruct (nullish session) eqn:Hs.
  { split; [now left | intros _; now apply mapSessionToCard_nullish]. }
  unfold _mapSessionToCard. rewrite session_card_eq by exact Hs. fold (item_of session).
  pose proof (toLowerCase_throws (prop (item_of session) "Type")) as HT.
  pose proof (image_or_null_throws (prop (item_of session) "Id") "Primary"
                encode_kind_Primary) as HP.
  pose proof (image_or_null_throws (prop (item_of session) "Id") "Backdrop"
                encode_kind_Backdrop) as HB.
  destruct (toLowerCase _) as [m|e]; cbn [bind try_catch].
  2:{ split; [|reflexivity]. intros _. right. left. apply HT. now eexists. }
  destruct (image_or_null _ "Primary") as [p|e]; cbn [bind try_catch].
  2:{ split; [|reflexivity]. intros _. right. right. apply HP. now eexists. }
  destruct (image_or_null _ "Backdrop") as [b|e]; cbn [bind try_catch].
  2:{ split; [|reflexivity]. intros _. right. right. apply HB. now eexists. }
  split; [discriminate|].
  intros [H | [H | H]]; [discriminate | |].
  - apply HT in H. destruct H. discriminate.
  - apply HP in H. destruct H. discriminate.
Qed.

(** X10: the item mapper, which has no [try] of its own, raises exactly when
    the item is [null] or [undefined], or its [Type] is a truthy value that
    is not a string, or its [Id] is truthy and prints with a lone
    surrogate. *)
Theorem mapItemToCard_raises_iff (it : JsVal) :
  (exists e, mapItemToCard it = Throw e)
  <-> nullish it = true
      \/ (to_boolean (prop it "Type") = true /\ forall s, prop it "Type" <> JStr s)
      \/ (to_boolean (prop it "Id") = true
          /\ has_lone_surrogate (str_bytes (to_string (prop it "Id"))) = true).
Proof.
  destruct (nullish it) eqn:Hs.
  { split; [now left | intros _; rewrite mapItemToCard_nullish by exact Hs; now eexists]. }
  rewrite mapItemToCard_eq by exact Hs.
  pose proof (toLowerCase_throws (prop it "Type")) as HT.
  pose proof (image_or_null_throws (prop it "Id") "Primary" encode_kind_Primary) as HP.
  pose proof (image_or_null_throws (prop it "Id") "Backdrop" encode_kind_Backdrop) as HB.
  destruct (toLowerCase _) as [m|e]; cbn [bind].
  2:{ split; [|now eexists]. intros _. right. left. apply HT. now eexists. }
  destruct (image_or_null _ "Primary") as [p|e]; cbn [bind].
  2:{ split; [|now eexists]. intros _. right. right. apply HP. now eexists. }
  destruct (image_or_null _ "Backdrop") as [b|e]; cbn [bind].
  2:{ split; [|now eexists]. intros _. right. right. apply HB. now eexists. }
  split; [intros [e H]; discriminate|].
  intros [H | [H | H]]; [discriminate | |].
  - apply HT in H. destruct H. discriminate.
  - apply HP in H. destruct H. discriminate.
Qed.

Lemma js_or_null_cases (a : JsVal) :
  js_or a JNull = JNull \/ to_boolean (js_or a JNull) = true.
Proof. unfold js_or. destruct (to_boolean a) eqn:E; [right; exact E | now left]. Qed.

(** X11: the fields of a session card written [x || null] are [null] or
    truthy: a falsy upstream value, such as the season or episode number 0 or
    an empty name, is reported as [null]. *)
Theorem session_card_falsy_is_null (session c : JsVal) :
  _mapSessionToCard session = c -> c <> JNull ->
  (forall k : string,
      In k session_nullable_keys -> prop c k = JNull \/ to_boolean (prop c k) = true)
  /\ (to_boolean (prop (item_of session) "ParentIndexNumber") = false ->
      prop c "season" = JNull)
  /\ (to_boolean (prop (item_of session) "IndexNumber") = false ->
      prop c "episode" = JNull)
  /\ (to_boolean (prop (item_of session) "ParentIndexNumber") = true ->
      prop c "season" = prop (item_of session) "ParentIndexNumber")
  /\ (to_boolean (prop (item_of session) "IndexNumber") = true ->
      prop c "episode" = prop (item_of session) "IndexNumber").
Proof.
  intros Hc Hnn.
  destruct (mapSessionToCard_full_inv session c Hc Hnn)
    as (_ & m & p & b & _ & _ & _ & ->).
  split; [|repeat split].
  - intros k Hk. unfold session_nullable_keys in Hk. cbn [In] in Hk.
    repeat (destruct Hk as [<- | Hk]; [apply js_or_null_cases|]). contradiction.
  - apply js_or_null_falsy.
  - apply js_or_null_falsy.
  - apply js_or_null_truthy.
  - apply js_or_null_truthy.
Qed.

Lemma title_and_name (name : JsVal) :
  (js_or name (JStr "") = JStr "" /\ js_or name JNull = JNull)
  \/ (to_boolean (js_or name (JStr "")) = true
      /\ js_or name JNull = js_or name (JStr "")).
Proof.
  unfold js_or. destruct (to_boolean name) eqn:E; [right | left]; now split.
Qed.

(** X12: in every card of either mapper the episode name is the title, and
    it is [null] when the title is empty, whatever the kind of item. *)
Theorem episode_name_is_title :
  (forall session c : JsVal,
      _mapSessionToCard session = c -> c <> JNull ->
      (prop c "title" = JStr "" /\ prop c "episodeName" = JNull)
      \/ (to_boolean (prop c "title") = true /\ prop c "episodeName" = prop c "title"))
  /\ (forall it c : JsVal,
         mapItemToCard it = Ok c ->
         (prop c "title" = JStr "" /\ prop c "episodeName" = JNull)
         \/ (to_boolean (prop c "title") = true
             /\ prop c "episodeName" = prop c "title")).
Proof.
  split.
  - intros session c Hc Hnn.
    destruct (mapSessionToCard_full_inv session c Hc Hnn)
      as (_ & m & p & b & _ & _ & _ & ->).
    apply title_and_name.
  - intros it c Hc.
    destruct (mapItemToCard_full_inv it c Hc) as (_ & m & p & b & _ & _ & _ & ->).
    apply title_and_name.
Qed.

Lemma session_card_raw (session c : JsVal) :
  _mapSessionToCard session = c -> c <> JNull -> prop c "__raw" = session.
Proof.
  intros Hc Hnn.
  destruct (mapSessionToCard_full_inv session c Hc Hnn)
    as (_ & m & p & b & _ & _ & _ & ->).
  reflexivity.
Qed.

Lemma item_card_raw (it c : JsVal) : mapItemToCard it = Ok c -> prop c "__raw" = it.
Proof.
  intro Hc.
  destruct (mapItemToCard_full_inv it c Hc) as (_ & m & p & b & _ & _ & _ & ->).
  reflexivity.
Qed.

(** X13: a card keeps the upstream record it was made from under [__raw], so
    that two records with the same card are the same record. *)
Theorem card_keeps_raw_record :
  (forall session c : JsVal,
      _mapSessionToCard session = c -> c <> JNull -> prop c "__raw" = session)
  /\ (forall it c : JsVal, mapItemToCard it = Ok c -> prop c "__raw" = it)
  /\ (forall s1 s2 : JsVal,
         _mapSessionToCard s1 <> JNull ->
         _mapSessionToCard s1 = _mapSessionToCard s2 -> s1 = s2)
  /\ (forall i1 i2 c : JsVal,
         mapItemToCard i1 = Ok c -> mapItemToCard i2 = Ok c -> i1 = i2).
Proof.
  split; [exact session_card_raw | split; [exact item_card_raw | split]].
  - intros s1 s2 Hnn E.
    rewrite <- (session_card_raw s1 _ eq_refl Hnn). rewrite E in Hnn |- *.
    now apply session_card_raw.
  - intros i1 i2 c H1 H2. rewrite <- (item_card_raw i1 c H1). now apply item_card_raw.
Qed.

Lemma user_of_session (session : JsVal) :
  let user := js_or (prop session "User") (JObj []) in
  js_and user (prop user "Id") = prop (prop session "User") "Id".
Proof.
  cbv zeta. unfold js_or. destruct (to_boolean (prop session "User")) eqn:E.
  - unfold js_and. now rewrite E.
  - destruct (prop session "User"); try reflexivity; discriminate.
Qed.

(** X14: the user of a session card is [session.UserId] when that is truthy,
    otherwise [session.User.Id] when that is truthy, otherwise [null]; its
    player name is [session.DeviceName], otherwise [session.Client.Name],
    otherwise [null]. *)
Theorem session_card_user_and_player (session c : JsVal) :
  _mapSessionToCard session = c -> c <> JNull ->
  let userId := prop session "UserId" in
  let userRef := prop (prop session "User") "Id" in
  let device := prop session "DeviceName" in
  let clientName := prop (prop session "Client") "Name" in
  (to_boolean userId = true -> prop c "userId" = userId)
  /\ (to_boolean userId = false -> to_boolean userRef = true -> prop c "userId" = userRef)
  /\ (to_boolean userId = false -> to_boolean userRef = false -> prop c "userId" = JNull)
  /\ (to_boolean device = true -> prop c "playerName" = device)
  /\ (to_boolean device = false -> to_boolean (prop session "Client") = true ->
      to_boolean clientName = true -> prop c "playerName" = clientName)
  /\ (to_boolean device = false -> to_boolean (prop session "Client") = false ->
      prop c "playerName" = JNull).
Proof.
  intros Hc Hnn userId userRef device clientName.
  destruct (mapSessionToCard_full_inv session c Hc Hnn)
    as (_ & m & p & b & _ & _ & _ & ->).
  pose proof (user_of_session session) as Hu. cbv zeta in Hu.
  assert (Eu : prop (JObj (session_fields session m p b)) "userId"
               = js_or (js_or userId userRef) JNull).
  { unfold userRef. rewrite <- Hu. reflexivity. }
  assert (Ep : prop (JObj (session_fields session m p b)) "playerName"
               = js_or (js_or device (js_and (prop session "Client") clientName)) JNull)
    by reflexivity.
  rewrite Eu, Ep. unfold js_or, js_and.
  repeat split; intros;
    repeat (match goal with
            | H : to_boolean _ = _ |- _ => rewrite H
            end; cbv iota);
    reflexivity.
Qed.

Lemma lower_byte_not_upper (c : ascii) : is_upper (lower_byte c) = false.
Proof. destruct c as [[] [] [] [] [] [] [] []]; reflexivity. Qed.

Lemma lower_byte_idempotent (c : ascii) : lower_byte (lower_byte c) = lower_byte c.
Proof. unfold lower_byte at 1. now rewrite lower_byte_not_upper. Qed.

Lemma ascii_lower_idempotent (s : string) : ascii_lower (ascii_lower s) = ascii_lower s.
Proof.
  unfold ascii_lower. rewrite str_bytes_str, map_map. f_equal.
  apply map_ext. intro c. apply lower_byte_idempotent.
Qed.

Lemma ascii_lower_no_upper (s : string) (c : ascii) :
  In c (str_bytes (ascii_lower s)) -> is_upper c = false.
Proof.
  unfold ascii_lower. rewrite str_bytes_str. intro H.
  apply in_map_iff in H as (d & <- & _). apply lower_byte_not_upper.
Qed.

(** X15: the media type of a card is a string: the empty one when the
    upstream [Type] is missing or falsy, and for a [Type] written in ASCII
    its lower-case form, in which no upper-case letter is left and which
    lower-casing does not change. *)
Theorem media_type_is_lower_case :
  (forall session c : JsVal,
      _mapSessionToCard session = c -> c <> JNull ->
      let type := prop (item_of session) "Type" in
      (exists m, prop c "mediaType" = JStr m)
      /\ (to_boolean type = false -> prop c "mediaType" = JStr "")
      /\ (forall t : string,
             type = JStr t -> is_ascii_only t = true ->
             prop c "mediaType" = JStr (ascii_lower t)
             /\ ascii_lower (ascii_lower t) = ascii_lower t
             /\ forall b, In b (str_bytes (ascii_lower t)) -> is_upper b = false))
  /\ (forall it c : JsVal,
         mapItemToCard it = Ok c ->
         let type := prop it "Type" in
         (exists m, prop c "mediaType" = JStr m)
         /\ (to_boolean type = false -> prop c "mediaType" = JStr "")
         /\ (forall t : string,
                type = JStr t -> is_ascii_only t = true ->
                prop c "mediaType" = JStr (ascii_lower t)
                /\ ascii_lower (ascii_lower t) = ascii_lower t
                /\ forall b, In b (str_bytes (ascii_lower t)) -> is_upper b = false)).
Proof.
  assert (H : forall type m : JsVal,
             toLowerCase (js_or type (JStr "")) = Ok m ->
             (exists s, m = JStr s)
             /\ (to_boolean type = false -> m = JStr "")
             /\ (forall t : string,
                    type = JStr t -> is_ascii_only t = true ->
                    m = JStr (ascii_lower t)
                    /\ ascii_lower (ascii_lower t) = ascii_lower t
                    /\ forall b, In b (str_bytes (ascii_lower t)) -> is_upper b = false)).
  { intros type m Hm. split; [now apply toLowerCase_string in Hm | split].
    - intro Hf. unfold js_or in Hm. rewrite Hf in Hm.
      change (Ok (JStr "") = Ok m) in Hm. congruence.
    - intros t -> Ha. split; [|split].
      + destruct (String.eqb_spec t "") as [->|Hne].
        * change (Ok (JStr "") = Ok m) in Hm. injection Hm as <-. reflexivity.
        * now apply lower_of_ascii.
      + apply ascii_lower_idempotent.
      + apply ascii_lower_no_upper. }
  split.
  - intros session c Hc Hnn.
    destruct (mapSessionToCard_full_inv session c Hc Hnn)
      as (_ & m & p & b & Hm & _ & _ & ->).
    exact (H _ m Hm).
  - intros it c Hc.
    destruct (mapItemToCard_full_inv it c Hc) as (_ & m & p & b & Hm & _ & _ & ->).
    exact (H _ m Hm).
Qed.

(* =============================================================== *)
(** ** The live-session pipeline, record by record *)

Lemma live_cards_of_array (this : JellyfinMS) (sessions : list JsVal) :
  client this sessions_request = Resolved (JArr sessions) ->
  live_cards this = filter not_null (map _mapSessionToCard sessions).
Proof. intro H. unfold live_cards. now rewrite H. Qed.

Lemma raw_of_live_cards (sessions : list JsVal) :
  map (fun c => prop c "__raw") (filter not_null (map _mapSessionToCard sessions))
  = filter (fun s => not_null (_mapSessionToCard s)) sessions.
Proof.
  induction sessions as [|s l IH]; [reflexivity|].
  cbn [map filter]. destruct (not_null (_mapSessionToCard s)) eqn:E; [|exact IH].
  cbn [map]. rewrite IH. f_equal. apply session_card_raw; [reflexivity|].
  intro H. rewrite H in E. discriminate.
Qed.

Lemma raw_after_delete (c : JsVal) :
  prop (delete_prop c "userId") "__raw" = prop c "__raw".
Proof.
  destruct c; try reflexivity. cbn [delete_prop prop].
  rewrite lookup_remove_key_ne; [reflexivity | discriminate].
Qed.

Lemma shown_cards (this : JellyfinMS) (hideUser excl : JsVal) :
  exists cards,
    snd (GetNowScreening this hideUser excl) = Ok (JArr cards)
    /\ map (fun c => prop c "__raw") cards
       = map (fun c => prop c "__raw") (live_cards this)
    /\ List.length cards = List.length (live_cards this).
Proof.
  rewrite GetNowScreening_eq. cbn [snd]. destruct (hide_flag hideUser).
  - eexists. split; [reflexivity|]. rewrite map_map, length_map. split; [|reflexivity].
    apply map_ext. intro c. apply raw_after_delete.
  - eexists. now repeat split.
Qed.

(** X16: [GetNowScreening] keeps the sessions that map to a card, in the
    order of the upstream list, and drops the others without touching their
    neighbours: the [__raw] of its cards are those sessions, with or without
    the hide-user flag, and there are no more cards than sessions. *)
Theorem now_screening_keeps_order (this : JellyfinMS) (hideUser excl : JsVal)
        (sessions : list JsVal) :
  client this sessions_request = Resolved (JArr sessions) ->
  exists cards,
    snd (GetNowScreening this hideUser excl) = Ok (JArr cards)
    /\ map (fun c => prop c "__raw") cards
       = filter (fun s => not_null (_mapSessionToCard s)) sessions
    /\ (List.length cards <= List.length sessions)%nat.
Proof.
  intro Hc. destruct (shown_cards this hideUser excl) as (cards & E & Hraw & Hlen).
  exists cards. split; [exact E|].
  rewrite (live_cards_of_array this sessions Hc) in Hraw, Hlen.
  split.
  - rewrite Hraw. apply raw_of_live_cards.
  - rewrite Hlen. etransitivity; [apply filter_length_le|]. now rewrite length_map.
Qed.

(** X17: the hide-user flag removes the [userId] of a card and nothing of the
    record kept under [__raw]: every card of a call with the flag set still
    holds its upstream session, user fields included. *)
Theorem hidden_user_stays_in_raw (this : JellyfinMS) (hideUser excl : JsVal)
        (sessions : list JsVal) :
  hideUser = JBool true \/ hideUser = JStr "true" ->
  client this sessions_request = Resolved (JArr sessions) ->
  exists cards,
    snd (GetNowScreening this hideUser excl) = Ok (JArr cards)
    /\ forall c, In c cards ->
         prop c "userId" = JUndefined
         /\ exists s, In s sessions
              /\ prop c "__raw" = s
              /\ prop (prop c "__raw") "UserId" = prop s "UserId"
              /\ prop (prop c "__raw") "User" = prop s "User".
Proof.
  intros Hh Hc.
  assert (Hf : hide_flag hideUser = true) by (destruct Hh as [-> | ->]; reflexivity).
  rewrite GetNowScreening_eq, Hf. cbn [snd]. eexists. split; [reflexivity|].
  intros c Hin. apply in_map_iff in Hin as (c0 & <- & Hin).
  rewrite (live_cards_of_array this sessions Hc) in Hin.
  apply filter_In in Hin as [Hin Hnn]. apply in_map_iff in Hin as (s & <- & Hs).
  assert (Hne : _mapSessionToCard s <> JNull)
    by (intro H; unfold not_null in Hnn; rewrite H in Hnn; discriminate).
  split.
  - destruct (mapSessionToCard_shape s) as [E | [f E]]; [contradiction|].
    rewrite E. cbn [delete_prop prop].
    pose proof (has_key_remove_key "userId" f) as Hk.
    revert Hk. generalize (remove_key "userId" f). intro g.
    induction g as [|[k v] g IH]; [reflexivity|].
    unfold has_key. cbn [existsb fst lookup].
    destruct (String.eqb "userId" k); cbn [orb]; [discriminate | exact IH].
  - exists s. rewrite raw_after_delete, (session_card_raw s _ eq_refl Hne).
    now repeat split.
Qed.

Lemma hide_flag_true (hideUser : JsVal) :
  hide_flag hideUser = true <-> hideUser = JBool true \/ hideUser = JStr "true".
Proof.
  unfold hide_flag. split.
  - intro H. apply orb_true_iff in H as [H | H].
    + left. destruct hideUser as [| |[]| | | |]; cbn in H; congruence.
    + right. now apply strict_eq_str in H.
  - intros [-> | ->]; reflexivity.
Qed.

Lemma live_card_has_userId (this : JellyfinMS) (c : JsVal) :
  In c (live_cards this) -> exists f, c = JObj f /\ has_key "userId" f = true.
Proof.
  unfold live_cards. destruct (client this sessions_request) as [data|]; [|contradiction].
  destruct (js_or data (JArr [])) as [| | | | |sessions|]; try contradiction.
  intro Hin. apply filter_In in Hin as [Hin Hnn]. apply in_map_iff in Hin as (s & <- & _).
  assert (Hne : _mapSessionToCard s <> JNull) by (intro H; rewrite H in Hnn; discriminate).
  destruct (mapSessionToCard_full_inv s _ eq_refl Hne)
    as (_ & m & p & b & _ & _ & _ & E).
  rewrite E. eexists. split; reflexivity.
Qed.

(** X18: [GetNowScreening] sends one request, for [/Sessions] without
    parameters; its result does not depend on [excludeLibraries]; and
    [hideUser] counts only when it is [true] or ['true']: with any other
    value, truthy ones included, every card keeps its [userId] key. *)
Theorem now_screening_arguments (this : JellyfinMS) (hideUser excl excl' : JsVal) :
  fst (GetNowScreening this hideUser excl) = [sessions_request]
  /\ GetNowScreening this hideUser excl = GetNowScreening this hideUser excl'
  /\ (hideUser <> JBool true -> hideUser <> JStr "true" ->
      exists cards,
        snd (GetNowScreening this hideUser excl) = Ok (JArr cards)
        /\ forall c, In c cards -> exists f, c = JObj f /\ has_key "userId" f = true).
Proof.
  rewrite !GetNowScreening_eq. cbn [fst snd]. repeat split.
  intros H1 H2.
  assert (Hf : hide_flag hideUser = false).
  { destruct (hide_flag hideUser) eqn:E; [|reflexivity].
    apply hide_flag_true in E as [E | E]; contradiction. }
  rewrite Hf. eexists. split; [reflexivity|]. apply live_card_has_userId.
Qed.

(** X19: when the upstream answers [/Sessions] with data that is falsy or is
    not an array (an error object, a page of text), [GetNowScreening] returns
    the empty array. *)
Theorem now_screening_unusable_data (this : JellyfinMS) (hideUser excl data : JsVal) :
  client this sessions_request = Resolved data ->
  to_boolean data = false \/ (forall l, data <> JArr l) ->
  GetNowScreening this hideUser excl = ([sessions_request], Ok (JArr [])).
Proof.
  intros Hc Hd. rewrite GetNowScreening_eq.
  assert (E : live_cards this = []).
  { unfold live_cards, js_or. rewrite Hc. destruct Hd as [Hf | Hn].
    - now rewrite Hf.
    - destruct (to_boolean data) eqn:Et; [|reflexivity].
      destruct data; try reflexivity. now destruct (Hn items). }
  rewrite E. now destruct (hide_flag hideUser).
Qed.

(* =============================================================== *)
(** ** The on-demand pipeline, request by request *)

Lemma items_of_array (l : list JsVal) : items_of (JArr l) = Ok (JArr l).
Proof. reflexivity. Qed.

Lemma items_of_wrapped (fields : list (string * JsVal)) (l : list JsVal) :
  lookup "Items" fields = Some (JArr l) -> items_of (JObj fields) = Ok (JArr l).
Proof.
  intro H. unfold items_of, and_then, get_prop. cbn [to_boolean nullish prop].
  rewrite H. reflexivity.
Qed.

Lemma no_items_nonempty (x : JsVal) (l : list JsVal) : no_items (JArr (x :: l)) = Ok false.
Proof. reflexivity. Qed.

Lemma mapM_throw {A B : Type} (f : A -> result B) (l : list A) (x : A) (e : exn) :
  In x l -> f x = Throw e -> exists e', mapM f l = Throw e'.
Proof.
  induction l as [|y l IH]; [contradiction|].
  intros [-> | Hin] Hx; cbn [mapM].
  - rewrite Hx. now eexists.
  - destruct (f y); cbn [bind]; [|now eexists].
    destruct (IH Hin Hx) as [e' ->]. now eexists.
Qed.

Lemma cards_of_bad_item (l : list JsVal) (x : JsVal) (e : exn) (limit : number) :
  In x l -> mapItemToCard x = Throw e -> cards_of (JArr l) limit = JArr [].
Proof.
  intros Hin Hx. unfold cards_of. cbn [js_or to_boolean array_map].
  destruct (mapM_throw mapItemToCard l x e Hin Hx) as [e' ->]. reflexivity.
Qed.

(** X20: one item that the mapper rejects empties the whole on-demand result:
    with no user configured and a recently-added list that holds a [null]
    item (or any item on which the mapper raises), [GetOnDemand] returns the
    empty array, however many good items the list has. *)
Theorem on_demand_all_or_nothing (this : JellyfinMS) (count : JsVal)
        (l : list JsVal) (x : JsVal) (e : exn) :
  to_boolean (userId this) = false ->
  client this (latest_request (onDemandLimit count)) = Resolved (JArr l) ->
  In x l -> mapItemToCard x = Throw e ->
  GetOnDemand this count = ([latest_request (onDemandLimit count)], Ok (JArr [])).
Proof.
  intros Hu Hc Hin Hx. rewrite GetOnDemand_no_user by exact Hu.
  unfold latest_cards. rewrite Hc, items_of_array.
  now rewrite (cards_of_bad_item l x e _ Hin Hx).
Qed.

(** X21: when the resume request answers with at least one item, that is the
    only request of the call, and the result is made of the resume items
    alone, mapped and truncated. *)
Theorem on_demand_resume_short_circuit (this : JellyfinMS) (count : JsVal)
        (u : string) (data x : JsVal) (l : list JsVal) :
  to_boolean (userId this) = true ->
  encodeURIComponent (userId this) = Ok u ->
  client this (resume_request u (onDemandLimit count)) = Resolved data ->
  items_of data = Ok (JArr (x :: l)) ->
  GetOnDemand this count
  = ([resume_request u (onDemandLimit count)],
     Ok (cards_of (JArr (x :: l)) (onDemandLimit count))).
Proof.
  intros Hu He Hc Hi.
  destruct (GetOnDemand_run this count) as (trace & result & -> & Hrun).
  inversion Hrun; subst; try congruence.
  - assert (u0 = u) by congruence. subst u0.
    assert (data0 = data) by congruence. subst data0.
    assert (items = JArr (x :: l)) by congruence. subst items.
    rewrite no_items_nonempty in *. discriminate.
Qed.

(** X22: a call of [GetOnDemand] sends at most two requests, the resume
    request first and the recently-added request, if any, last; it sends
    none only when a user is configured whose id cannot be encoded; and the
    user id in the resume path is encoded, so that no byte of it is a slash,
    a question mark or a hash. *)
Theorem on_demand_requests (this : JellyfinMS) (count : JsVal) :
  let limit := onDemandLimit count in
  let trace := fst (GetOnDemand this count) in
  (trace = [latest_request limit] /\ to_boolean (userId this) = false)
  \/ (trace = []
      /\ to_boolean (userId this) = true
      /\ exists e, encodeURIComponent (userId this) = Throw e)
  \/ (exists u,
         to_boolean (userId this) = true
         /\ encodeURIComponent (userId this) = Ok u
         /\ (trace = [resume_request u limit]
             \/ trace = [resume_request u limit; latest_request limit])
         /\ path (resume_request u limit) = "/Users/" ++ u ++ "/Items/Resume"
         /\ forall c, In c (str_bytes u) ->
              c <> "/"%char /\ c <> "?"%char /\ c <> "#"%char).
Proof.
  intros limit trace. unfold trace.
  destruct (GetOnDemand_run this count) as (tr & result & -> & Hrun). cbn [fst].
  fold limit in Hrun.
  assert (Hsafe : forall u, encodeURIComponent (userId this) = Ok u ->
                  forall c, In c (str_bytes u) ->
                  c <> "/"%char /\ c <> "?"%char /\ c <> "#"%char).
  { intros u He c Hc. pose proof (encoded_bytes_safe _ u c He Hc) as H.
    repeat split; intros ->; discriminate. }
  inversion Hrun; subst.
  - left. now split.
  - right. left. repeat split; try assumption. now exists e.
  - right. right. exists u. split; [assumption|]. split; [assumption|].
    split; [now left|]. split; [reflexivity | now apply Hsafe].
  - right. right. exists u. split; [assumption|]. split; [assumption|].
    split; [now right|]. split; [reflexivity | now apply Hsafe].
  - right. right. exists u. split; [assumption|]. split; [assumption|].
    split; [now left|]. split; [reflexivity | now apply Hsafe].
Qed.

(** X23: the two shapes of an upstream answer give the same cards: a bare
    list of items, and an object that holds the list under [Items], whatever
    else the object holds. *)
Theorem items_wrapper_is_transparent (this this' : JellyfinMS) (limit : number)
        (l : list JsVal) (fields : list (string * JsVal)) :
  client this (latest_request limit) = Resolved (JArr l) ->
  client this' (latest_request limit) = Resolved (JObj fields) ->
  lookup "Items" fields = Some (JArr l) ->
  latest_cards this limit = cards_of (JArr l) limit
  /\ latest_cards this' limit = cards_of (JArr l) limit.
Proof.
  intros H H' Hl. unfold latest_cards.
  rewrite H, H', items_of_array, (items_of_wrapped fields l Hl). now split.
Qed.

Lemma mapM_items_raw (l cards : list JsVal) :
  mapM mapItemToCard l = Ok cards ->
  map (fun c => prop c "__raw") cards = l.
Proof.
  revert cards. induction l as [|x l IH]; intros cards H; cbn [mapM] in H.
  - injection H as <-. reflexivity.
  - destruct (mapItemToCard x) as [c|e] eqn:Ex; cbn [bind] in H; [|discriminate].
    destruct (mapM mapItemToCard l) as [cs|e]; cbn [bind] in H; [|discriminate].
    injection H as <-. cbn [map]. f_equal; [now apply item_card_raw | now apply IH].
Qed.

Lemma slice0_nonneg {A : Type} (l : list A) (q : Q) :
  0 <= q -> slice0 l (Fin q) = firstn (Z.to_nat (Qfloor q)) l.
Proof.
  intro Hq. unfold slice0. rewrite (Qtrunc_nonneg q Hq).
  assert (H0 : (0 <= Qfloor q)%Z).
  { change 0%Z with (Qfloor 0). now apply Qfloor_resp_le. }
  destruct (Z.ltb_spec (Qfloor q) 0) as [Hneg|_]; [lia|].
  destruct (Z.le_gt_cases (Qfloor q) (Z.of_nat (List.length l))) as [Hle|Hgt].
  - now rewrite Z.min_l by exact Hle.
  - rewrite Z.min_r by lia. rewrite Nat2Z.id, firstn_all.
    symmetry. apply firstn_all2. lia.
Qed.

Lemma cards_of_mapped (l cards : list JsVal) (limit : number) :
  mapM mapItemToCard l = Ok cards -> cards_of (JArr l) limit = JArr (slice0 cards limit).
Proof. intro H. unfold cards_of. cbn [js_or to_boolean array_map]. now rewrite H. Qed.

(** X24: with a limit that is not negative, the on-demand cards are the
    first [floor(limit)] items of the source, in upstream order, each with
    its item under [__raw]; a source no longer than the limit is returned
    whole. *)
Theorem on_demand_is_a_prefix (l cards : list JsVal) (q : Q) :
  mapM mapItemToCard l = Ok cards -> 0 <= q ->
  let k := Z.to_nat (Qfloor q) in
  cards_of (JArr l) (Fin q) = JArr (firstn k cards)
  /\ map (fun c => prop c "__raw") (firstn k cards) = firstn k l
  /\ ((List.length l <= k)%nat -> firstn k cards = cards).
Proof.
  intros Hm Hq k. pose proof (mapM_items_raw l cards Hm) as Hraw.
  split; [|split].
  - rewrite (cards_of_mapped l cards _ Hm). now rewrite slice0_nonneg.
  - now rewrite <- firstn_map, Hraw.
  - intro Hl. apply firstn_all2. rewrite <- Hraw in Hl. now rewrite length_map in Hl.
Qed.

Lemma slice0_negative {A : Type} (l : list A) (z : Z) :
  (z < 0)%Z ->
  slice0 l (num_of_Z z) = firstn (List.length l - Z.to_nat (- z)) l.
Proof.
  intro Hz. unfold slice0, num_of_Z, Qtrunc. cbn [Qnum Qden inject_Z].
  rewrite Z.quot_1_r. destruct (Z.ltb_spec z 0) as [_|H]; [|lia].
  f_equal. lia.
Qed.

(** X25: a negative count is not refused: with no user configured the
    request carries the negative limit, and the result is the mapped items
    without their last [-count] ones. *)
Theorem on_demand_negative_count (this : JellyfinMS) (z : Z) (l cards : list JsVal) :
  (z < 0)%Z ->
  to_boolean (userId this) = false ->
  client this (latest_request (num_of_Z z)) = Resolved (JArr l) ->
  mapM mapItemToCard l = Ok cards ->
  GetOnDemand this (JInt z)
  = ([latest_request (num_of_Z z)],
     Ok (JArr (firstn (List.length cards - Z.to_nat (- z)) cards))).
Proof.
  intros Hz Hu Hc Hm.
  assert (El : onDemandLimit (JInt z) = num_of_Z z).
  { apply (onDemandLimit_finite (JInt z) (inject_Z z)); try discriminate;
      try reflexivity.
    - unfold Qeq. cbn. lia.
    - unfold Qlt. cbn. lia. }
  rewrite GetOnDemand_no_user by exact Hu. rewrite El.
  unfold latest_cards. rewrite Hc, items_of_array, (cards_of_mapped l cards _ Hm).
  now rewrite slice0_negative.
Qed.

(* =============================================================== *)
(** ** Ticks and percentages, in numbers *)

(** X26: whatever it is given, [_ticksToMs] returns [null], an integer, or
    an infinity; never [NaN], never [undefined], never a fraction. *)
Theorem ticksToMs_result (v : JsVal) :
  _ticksToMs v = JNull
  \/ (exists z : Z, _ticksToMs v = JInt z)
  \/ _ticksToMs v = JNum PInf
  \/ _ticksToMs v = JNum NInf.
Proof.
  unfold _ticksToMs. destruct (negb _ && negb _); [now left|].
  destruct (to_number v) as [| | |q]; cbn [is_NaN].
  - now left.
  - right. right. left. reflexivity.
  - right. right. right. reflexivity.
  - right. left. unfold num_div, num_of_Z.
    change (Qis_zero (inject_Z 10000)) with false. cbv iota. now eexists.
Qed.


Lemma percent_in_range (qr qp : Q) :
  0 < qp -> qp <= qr ->
  exists z : Z,
    percent (JNum (Fin qr)) (JNum (Fin qp)) = JInt z /\ (0 <= z <= 100)%Z.
Proof.
  intros Hp Hle.
  assert (Hr : 0 < qr) by (eapply Qlt_le_trans; eassumption).
  exists (Qround_half_up (qp / qr * 100)). split.
  - apply percent_finite; intro E.
    + rewrite E in Hr. now apply Qlt_irrefl in Hr.
    + rewrite E in Hp. now apply Qlt_irrefl in Hp.
  - assert (H0 : 0 <= qp / qr * 100).
    { apply Qmult_le_0_compat; [|discriminate].
      apply Qle_shift_div_l; [exact Hr|]. rewrite Qmult_0_l. now apply Qlt_le_weak. }
    assert (H1 : qp / qr * 100 <= 100).
    { setoid_replace 100 with (1 * 100) at 2 by reflexivity.
      apply Qmult_le_compat_r; [|discriminate].
      apply Qle_shift_div_r; [exact Hr|]. now rewrite Qmult_1_l. }
    unfold Qround_half_up. split.
    + change 0%Z with (Qfloor (0 + (1 # 2))). apply Qfloor_resp_le.
      now apply Qplus_le_l.
    + change 100%Z with (Qfloor (100 + (1 # 2))). apply Qfloor_resp_le.
      now apply Qplus_le_l.
Qed.

(** X28: in a card of either mapper whose position is a positive number not
    beyond its runtime, the percentage is an integer from 0 to 100. *)
Theorem percent_within_hundred :
  (forall (session c : JsVal) (qr qp : Q),
      _mapSessionToCard session = c -> c <> JNull ->
      prop c "runtimeMs" = JNum (Fin qr) -> prop c "progressMs" = JNum (Fin qp) ->
      0 < qp -> qp <= qr ->
      exists z : Z, prop c "progressPercent" = JInt z /\ (0 <= z <= 100)%Z)
  /\ (forall (it c : JsVal) (qr qp : Q),
         mapItemToCard it = Ok c ->
         prop c "runtimeMs" = JNum (Fin qr) ->
         prop c "resumePositionMs" = JNum (Fin qp) ->
         0 < qp -> qp <= qr ->
         exists z : Z, prop c "resumePercent" = JInt z /\ (0 <= z <= 100)%Z).
Proof.
  split.
  - intros session c qr qp Hc Hnn Hr Hp H0 Hle.
    destruct (mapSessionToCard_full_inv session c Hc Hnn)
      as (_ & m & p & b & _ & _ & _ & ->).
    change (runtime_val (js_or (prop session "NowPlayingItem") (JObj []))
            = JNum (Fin qr)) in Hr.
    change (position_val (js_or (prop session "PlayState") (JObj []))
            = JNum (Fin qp)) in Hp.
    change (prop (JObj (session_fields session m p b)) "progressPercent")
      with (percent (runtime_val (js_or (prop session "NowPlayingItem") (JObj [])))
                    (position_val (js_or (prop session "PlayState") (JObj [])))).
    rewrite Hr, Hp. now apply percent_in_range.
  - intros it c qr qp Hc Hr Hp H0 Hle.
    destruct (mapItemToCard_full_inv it c Hc) as (_ & m & p & b & _ & _ & _ & ->).
    change (runtime_val it = JNum (Fin qr)) in Hr.
    change (resume_val it = JNum (Fin qp)) in Hp.
    change (prop (JObj (item_fields it m p b)) "resumePercent")
      with (percent (runtime_val it) (resume_val it)).
    rewrite Hr, Hp. now apply percent_in_range.
Qed.

End Host.

(* ================================================================= *)
(** ** The adapter run on sample inputs

    The host is instantiated with [decimal_to_string] and [ascii_lower]. *)

Local Notation "'mapSession'" := (_mapSessionToCard decimal_to_string ascii_lower).
Local Notation "'nowScreening'" := (GetNowScreening decimal_to_string ascii_lower).
Local Notation "'onDemand'" := (GetOnDemand decimal_to_string ascii_lower).



(** [hide_user_strips_userId] on an upstream with one live session. *)
Lemma hide_user_strips_userId_witness :
  (JBool true = JBool true \/ JBool true = JStr "true")
  /\ hide_flag (JBool false) = false
  /\ exists cards0 cards1,
      snd (nowScreening (adapter JNull one_session) (JBool false) JUndefined)
      = Ok (JArr cards0)
      /\ snd (nowScreening (adapter JNull one_session) (JBool true) JUndefined)
         = Ok (JArr cards1)
      /\ Forall2 userId_stripped cards0 cards1
      /\ Forall (fun c => prop c "userId" = JUndefined) cards1.
Proof.
  split; [now left | split; [reflexivity|]].
  apply (hide_user_strips_userId decimal_to_string ascii_lower
           (adapter JNull one_session) (JBool true) (JBool false) JUndefined);
    [now left | reflexivity].
Defined.

(** [session_without_item] at an object, at a string and at a numeric [Type]. *)
Lemma session_without_item_witness :
  lookup "NowPlayingItem" [("Id", JStr "s1")] = None
  /\ prop (mapSession (JObj [("Id", JStr "s1")])) "title" = JStr ""
  /\ prop (mapSession (JObj [("Id", JStr "s1")])) "itemId" = JNull
  /\ prop (mapSession (JStr "session")) "itemId" = JNull
  /\ mapSession (JObj [("NowPlayingItem", JObj [("Type", JInt 7)])]) = JNull.
Proof.
  destruct (session_without_item decimal_to_string ascii_lower)
    as (Ho & _ & _ & Hp & Hty).
  assert (H1 : lookup "NowPlayingItem" [("Id", JStr "s1")] = None) by reflexivity.
  destruct (Ho _ H1) as (_ & Ht & Hi).
  assert (H2 : (exists b, JStr "session" = JBool b) \/ (exists n, JStr "session" = JNum n)
               \/ (exists s, JStr "session" = JStr s))
    by (right; right; now exists "session").
  destruct (Hp _ H2) as (_ & _ & Hi').
  assert (H3 : forall s, JInt 7 <> JStr s) by discriminate.
  exact (conj H1 (conj Ht (conj Hi (conj Hi'
           (Hty (JObj [("NowPlayingItem", JObj [("Type", JInt 7)])])
                eq_refl eq_refl H3))))).
Defined.

(** [theme_of_cards] at the session of the specification. *)
Lemma theme_of_cards_witness :
  mapSession sample_session <> JNull
  /\ prop (mapSession sample_session) "theme" = JStr "movie"
  /\ prop (mapSession sample_session) "theme" = prop (mapSession sample_session) "mediaType".
Proof.
  destruct (theme_of_cards decimal_to_string ascii_lower) as (Hs & _ & _).
  assert (Hnn : mapSession sample_session <> JNull) by discriminate.
  destruct (Hs sample_session _ eq_refl Hnn) as (Hm & _ & _ & Hmt & _).
  assert (Ht : prop (mapSession sample_session) "theme" = JStr "movie")
    by (apply Hm; reflexivity).
  split; [exact Hnn | split; [exact Ht|]].
  apply Hmt. rewrite Ht. discriminate.
Defined.

(** [pipelines_never_raise] on an upstream that rejects both first requests. *)
Lemma pipelines_never_raise_witness :
  client (adapter (JStr "u1") resume_down) sessions_request = Rejected
  /\ snd (nowScreening (adapter (JStr "u1") resume_down) JUndefined JUndefined)
     = Ok (JArr [])
  /\ In (resume_request "u1" (Fin 10)) (fst (onDemand (adapter (JStr "u1") resume_down) (JInt 10)))
  /\ client (adapter (JStr "u1") resume_down) (resume_request "u1" (Fin 10)) = Rejected
  /\ snd (onDemand (adapter (JStr "u1") resume_down) (JInt 10)) = Ok (JArr []).
Proof.
  destruct (pipelines_never_raise decimal_to_string ascii_lower
              (adapter (JStr "u1") resume_down) JUndefined JUndefined (JInt 10))
    as (_ & Hn & _ & Ho).
  assert (H1 : client (adapter (JStr "u1") resume_down) sessions_request = Rejected)
    by reflexivity.
  assert (H2 : In (resume_request "u1" (Fin 10))
                  (fst (onDemand (adapter (JStr "u1") resume_down) (JInt 10))))
    by (left; reflexivity).
  assert (H3 : client (adapter (JStr "u1") resume_down) (resume_request "u1" (Fin 10))
               = Rejected) by reflexivity.
  exact (conj H1 (conj (Hn H1) (conj H2 (conj H3 (Ho _ H2 H3))))).
Defined.

(** [onDemand_limit_by_design] at the counts [undefined], ["many"], 2 and 500. *)
Lemma onDemand_limit_by_design_witness :
  onDemandLimit decimal_to_string JUndefined = num_of_Z 20
  /\ onDemandLimit decimal_to_string (JStr "many") = num_of_Z 30
  /\ onDemandLimit decimal_to_string (JInt 2) = Fin 2
  /\ onDemandLimit decimal_to_string (JInt 500) = num_of_Z 200
  /\ (forall r, In r (fst (onDemand (adapter JNull resume_down) (JInt 2))) ->
      params r = limit_params (Fin 2))
  /\ exists cards,
      snd (onDemand (adapter JNull resume_down) (JInt 2)) = Ok (JArr cards)
      /\ inject_Z (Z.of_nat (List.length cards)) <= 2.
Proof.
  pose proof (onDemand_limit_by_design decimal_to_string ascii_lower
                (adapter JNull resume_down)) as H.
  destruct (H JUndefined) as (H20 & _).
  destruct (H (JStr "many")) as (_ & H30 & _).
  destruct (H (JInt 2)) as (_ & _ & H2 & Hp & (cards & Hc & Hlen)).
  destruct (H (JInt 500)) as (_ & _ & H500 & _).
  assert (N2 : JInt 2 <> JUndefined) by discriminate.
  assert (N500 : JInt 500 <> JUndefined) by discriminate.
  assert (Ns : JStr "many" <> JUndefined) by discriminate.
  assert (Z2 : ~ 2 == 0) by discriminate.
  assert (Z500 : ~ inject_Z 500 == 0) by discriminate.
  assert (L2 : 2 < 200) by reflexivity.
  assert (L500 : 200 <= inject_Z 500) by discriminate.
  assert (P2 : 0 <= 2) by discriminate.
  assert (E2 : onDemandLimit decimal_to_string (JInt 2) = Fin 2)
    by exact (proj1 (H2 2 N2 eq_refl Z2) L2).
  refine (conj (H20 eq_refl) (conj (H30 Ns eq_refl) (conj E2
            (conj (proj2 (H500 (inject_Z 500) N500 eq_refl Z500) L500)
               (conj Hp _))))).
  exists cards. exact (conj Hc (proj1 (Hlen 2 E2 P2))).
Defined.

(** [onDemand_fallback] without a user, with an empty resume list, and with the
    resume endpoint down. *)
Lemma onDemand_fallback_witness :
  onDemand (adapter JNull resume_down) (JInt 10)
  = ([latest_request (Fin 10)],
     Ok (latest_cards decimal_to_string ascii_lower (adapter JNull resume_down) (Fin 10)))
  /\ onDemand (adapter (JStr "u1") resume_empty) (JInt 10)
     = ([resume_request "u1" (Fin 10); latest_request (Fin 10)],
        Ok (latest_cards decimal_to_string ascii_lower
              (adapter (JStr "u1") resume_empty) (Fin 10)))
  /\ onDemand (adapter (JStr "u1") resume_down) (JInt 10)
     = ([resume_request "u1" (Fin 10)], Ok (JArr [])).
Proof.
  split; [|split].
  - apply (proj1 (onDemand_fallback decimal_to_string ascii_lower
                    (adapter JNull resume_down) (JInt 10))).
    reflexivity.
  - apply (proj1 (proj2 (onDemand_fallback decimal_to_string ascii_lower
                           (adapter (JStr "u1") resume_empty) (JInt 10)))
             "u1" (JObj [("Items", JArr [])])); reflexivity.
  - apply (proj2 (proj2 (onDemand_fallback decimal_to_string ascii_lower
                           (adapter (JStr "u1") resume_down) (JInt 10)))
             "u1"); reflexivity.
Defined.

(* ================================================================= *)
(** ** Where the code departs from the specification *)

(** Against C1: a count of [-1] is not clamped to [0].  The request asks for
    [-1] items and, of the three items served, two come back; and a count
    left out is 20, not 30. *)
Lemma count_is_not_clamped :
  clamped_count decimal_to_string (JInt (-1)) = num_of_Z 0
  /\ fst (onDemand (adapter JNull resume_down) (JInt (-1))) = [latest_request (Fin (-1))]
  /\ (exists c1 c2,
         snd (onDemand (adapter JNull resume_down) (JInt (-1))) = Ok (JArr [c1; c2]))
  /\ clamped_count decimal_to_string JUndefined = num_of_Z 30
  /\ onDemandLimit decimal_to_string JUndefined = num_of_Z 20.
Proof.
  repeat split. do 2 eexists. vm_compute. reflexivity.
Qed.

(** Against C2: with a user configured and the resume request failing, the
    pipeline returns nothing and never asks for the recently-added items,
    which the upstream would have served. *)
Lemma resume_failure_is_not_a_fallback :
  client (adapter (JStr "u1") resume_down) (resume_request "u1" (Fin 10)) = Rejected
  /\ onDemand (adapter (JStr "u1") resume_down) (JInt 10)
     = ([resume_request "u1" (Fin 10)], Ok (JArr []))
  /\ exists c1 c2 c3,
      latest_cards decimal_to_string ascii_lower (adapter (JStr "u1") resume_down) (Fin 10)
      = JArr [c1; c2; c3].
Proof.
  repeat split. do 3 eexists. vm_compute. reflexivity.
Qed.

(** Against C7: a session that is not an object, the number 42, does not map
    to [null]; it maps to a card. *)
Lemma number_session_is_a_card :
  (forall fields, JInt 42 <> JObj fields)
  /\ mapSession (JInt 42) <> JNull
  /\ is_card (mapSession (JInt 42)).
Proof.
  repeat split; try discriminate. vm_compute. now eexists.
Qed.

(* ================================================================= *)
(** ** The further properties on sample inputs *)

Local Notation "'mapItem'" := (mapItemToCard decimal_to_string ascii_lower).
Local Notation "'imageUrl'" := (_imageUrl decimal_to_string).

(** [constructor_outcomes] at [null], at empty options, at a numeric URL and
    at [sample_opts]. *)
Lemma constructor_outcomes_witness :
  JellyfinMS_constructor JNull = Raised TypeError
  /\ JellyfinMS_constructor (JObj []) = ConfigError config_message
  /\ JellyfinMS_constructor
       (JObj [("jellyfinUrl", JInt 5); ("jellyfinApiKey", JStr "key")])
     = Raised TypeError
  /\ JellyfinMS_constructor sample_opts = Constructed sample_instance.
Proof.
  pose proof (constructor_outcomes JNull) as H1. cbv zeta in H1.
  pose proof (constructor_outcomes (JObj [])) as H2. cbv zeta in H2.
  pose proof (constructor_outcomes
                (JObj [("jellyfinUrl", JInt 5); ("jellyfinApiKey", JStr "key")])) as H3.
  cbv zeta in H3.
  pose proof (constructor_outcomes sample_opts) as H4. cbv zeta in H4.
  assert (N2 : JObj [] <> JNull) by discriminate.
  assert (N3 : JObj [("jellyfinUrl", JInt 5); ("jellyfinApiKey", JStr "key")] <> JNull)
    by discriminate.
  assert (N4 : sample_opts <> JNull) by discriminate.
  assert (S3 : forall s, JInt 5 <> JStr s) by discriminate.
  assert (S4 : "http://jellyfin.local:8096/" <> "") by discriminate.
  exact (conj (proj1 H1 eq_refl)
          (conj (proj1 (proj2 H2) N2 (or_introl eq_refl))
             (conj (proj1 (proj2 (proj2 H3)) N3 eq_refl eq_refl S3)
                (proj2 (proj2 (proj2 H4)) _ N4 eq_refl S4 eq_refl)))).
Defined.

(** [constructor_base] at [sample_opts]. *)
Lemma constructor_base_witness :
  exists s,
    prop (default_arg sample_opts (JObj [])) "jellyfinUrl" = JStr s
    /\ (forall t, s = t ++ "/" -> i_base sample_instance = t)
    /\ ((forall t, s <> t ++ "/") -> i_base sample_instance = s).
Proof. exact (constructor_base sample_opts sample_instance eq_refl). Defined.

(** [constructor_without_user] at [sample_opts], whose user id is empty. *)
Lemma constructor_without_user_witness :
  i_userId sample_instance = JNull
  /\ onDemand (adapter JNull resume_down) (JInt 10)
     = ([latest_request (onDemandLimit decimal_to_string (JInt 10))],
        Ok (latest_cards decimal_to_string ascii_lower (adapter JNull resume_down)
              (onDemandLimit decimal_to_string (JInt 10)))).
Proof.
  exact (constructor_without_user decimal_to_string ascii_lower sample_opts
           sample_instance (adapter JNull resume_down) (JInt 10)
           eq_refl eq_refl eq_refl).
Defined.

(** [imageUrl_injective] at the number 42 and the string ["42"]. *)
Lemma imageUrl_injective_witness :
  to_string decimal_to_string (JInt 42) = to_string decimal_to_string (JStr "42").
Proof.
  exact (imageUrl_injective decimal_to_string (JInt 42) (JStr "42") (JStr "Primary")
           JUndefined "/jellyfin/image/42?type=Primary" eq_refl eq_refl).
Defined.

(** [imageUrl_id_is_one_segment] at an id with a slash in it. *)
Lemma imageUrl_id_is_one_segment_witness :
  exists e k,
    encodeURIComponent decimal_to_string (JStr "a/b") = Ok e
    /\ encodeURIComponent decimal_to_string (default_arg JUndefined (JStr "Primary")) = Ok k
    /\ "/jellyfin/image/a%2Fb?type=Primary" = "/jellyfin/image/" ++ e ++ "?type=" ++ k
    /\ forall c, In c (str_bytes e) ->
         uri_safe c = true
         /\ c <> "/"%char /\ c <> "?"%char /\ c <> "&"%char /\ c <> "#"%char
         /\ c <> "="%char /\ c <> " "%char.
Proof.
  exact (imageUrl_id_is_one_segment decimal_to_string (JStr "a/b") JUndefined
           "/jellyfin/image/a%2Fb?type=Primary" eq_refl).
Defined.

(** [session_card_fields] at the session of the specification. *)
Lemma session_card_fields_witness :
  keys_of (mapSession sample_session) = session_card_keys
  /\ all_defined (mapSession sample_session)
  /\ prop (mapSession sample_session) "progress"
     = prop (mapSession sample_session) "progressPercent".
Proof.
  assert (Hnn : mapSession sample_session <> JNull) by discriminate.
  exact (session_card_fields decimal_to_string ascii_lower sample_session _ eq_refl Hnn).
Defined.

(** [item_card_fields] at a sample item. *)
Lemma item_card_fields_witness :
  exists c,
    mapItem (sample_item "1") = Ok c
    /\ keys_of c = item_card_keys /\ all_defined c.
Proof.
  eexists. split; [reflexivity|].
  exact (item_card_fields decimal_to_string ascii_lower (sample_item "1") _ eq_refl).
Defined.

(** [card_images_follow_item_id] at a session with an item and at one
    without. *)
Lemma card_images_follow_item_id_witness :
  prop (mapSession special_session) "posterUrl"
  = JStr (image_ref decimal_to_string (prop (mapSession special_session) "itemId")
            "Primary")
  /\ prop (mapSession (JObj [])) "posterUrl" = JNull.
Proof.
  destruct (card_images_follow_item_id decimal_to_string ascii_lower) as [Hs _].
  assert (N1 : mapSession special_session <> JNull) by discriminate.
  assert (N2 : mapSession (JObj []) <> JNull) by discriminate.
  assert (I1 : prop (mapSession special_session) "itemId" <> JNull) by discriminate.
  destruct (Hs special_session _ eq_refl N1) as (_ & _ & H1).
  destruct (Hs (JObj []) _ eq_refl N2) as (H2 & _ & _).
  exact (conj (proj1 (H1 I1)) (proj1 H2 eq_refl)).
Defined.

(** [mapSessionToCard_null_iff] at [null] and at a numeric [Type]. *)
Lemma mapSessionToCard_null_iff_witness :
  mapSession JNull = JNull
  /\ mapSession (JObj [("NowPlayingItem", JObj [("Type", JInt 7)])]) = JNull
  /\ nullish sample_session <> true.
Proof.
  assert (T : forall s, JInt 7 <> JStr s) by discriminate.
  refine (conj (proj2 (mapSessionToCard_null_iff decimal_to_string ascii_lower JNull)
                  (or_introl eq_refl))
            (conj (proj2 (mapSessionToCard_null_iff decimal_to_string ascii_lower
                            (JObj [("NowPlayingItem", JObj [("Type", JInt 7)])]))
                     (or_intror (or_introl (conj eq_refl T))))
               _)).
  discriminate.
Defined.

(** [mapItemToCard_raises_iff] at [null]. *)
Lemma mapItemToCard_raises_iff_witness : exists e, mapItem JNull = Throw e.
Proof.
  exact (proj2 (mapItemToCard_raises_iff decimal_to_string ascii_lower JNull)
           (or_introl eq_refl)).
Defined.

(** [session_card_falsy_is_null] at an episode of season 0. *)
Lemma session_card_falsy_is_null_witness :
  prop (mapSession special_session) "season" = JNull
  /\ prop (mapSession special_session) "episode" = JInt 1
  /\ (prop (mapSession special_session) "playerIP" = JNull
      \/ to_boolean (prop (mapSession special_session) "playerIP") = true).
Proof.
  assert (Hnn : mapSession special_session <> JNull) by discriminate.
  destruct (session_card_falsy_is_null decimal_to_string ascii_lower special_session _
              eq_refl Hnn) as (Hk & Hs & _ & _ & He).
  assert (Hin : In "playerIP" session_nullable_keys)
    by (unfold session_nullable_keys; cbn [In]; tauto).
  exact (conj (Hs eq_refl) (conj (He eq_refl) (Hk "playerIP" Hin))).
Defined.

(** [episode_name_is_title] at the session of the specification, a movie. *)
Lemma episode_name_is_title_witness :
  (prop (mapSession sample_session) "title" = JStr ""
   /\ prop (mapSession sample_session) "episodeName" = JNull)
  \/ (to_boolean (prop (mapSession sample_session) "title") = true
      /\ prop (mapSession sample_session) "episodeName"
         = prop (mapSession sample_session) "title").
Proof.
  assert (Hnn : mapSession sample_session <> JNull) by discriminate.
  exact (proj1 (episode_name_is_title decimal_to_string ascii_lower)
           sample_session _ eq_refl Hnn).
Defined.

(** [card_keeps_raw_record] at the session of the specification. *)
Lemma card_keeps_raw_record_witness :
  prop (mapSession sample_session) "__raw" = sample_session.
Proof.
  assert (Hnn : mapSession sample_session <> JNull) by discriminate.
  exact (proj1 (card_keeps_raw_record decimal_to_string ascii_lower)
           sample_session _ eq_refl Hnn).
Defined.

(** [session_card_user_and_player] at a session with a user and a device. *)
Lemma session_card_user_and_player_witness :
  prop (mapSession special_session) "userId" = JStr "u1"
  /\ prop (mapSession special_session) "playerName" = JStr "TV"
  /\ prop (mapSession sample_session) "userId" = JNull
  /\ prop (mapSession sample_session) "playerName" = JNull.
Proof.
  assert (N1 : mapSession special_session <> JNull) by discriminate.
  assert (N2 : mapSession sample_session <> JNull) by discriminate.
  pose proof (session_card_user_and_player decimal_to_string ascii_lower
                special_session _ eq_refl N1) as H1. cbv zeta in H1.
  pose proof (session_card_user_and_player decimal_to_string ascii_lower
                sample_session _ eq_refl N2) as H2. cbv zeta in H2.
  destruct H1 as (U1 & _ & _ & P1 & _).
  destruct H2 as (_ & _ & U2 & _ & _ & P2).
  exact (conj (U1 eq_refl) (conj (P1 eq_refl)
           (conj (U2 eq_refl eq_refl) (P2 eq_refl eq_refl)))).
Defined.

(** [media_type_is_lower_case] at an episode. *)
Lemma media_type_is_lower_case_witness :
  prop (mapSession special_session) "mediaType" = JStr (ascii_lower "Episode")
  /\ prop (mapSession (JObj [])) "mediaType" = JStr "".
Proof.
  assert (N1 : mapSession special_session <> JNull) by discriminate.
  assert (N2 : mapSession (JObj []) <> JNull) by discriminate.
  pose proof (proj1 (media_type_is_lower_case decimal_to_string ascii_lower)
                special_session _ eq_refl N1) as H1. cbv zeta in H1.
  pose proof (proj1 (media_type_is_lower_case decimal_to_string ascii_lower)
                (JObj []) _ eq_refl N2) as H2. cbv zeta in H2.
  destruct H1 as (_ & _ & H1). destruct H2 as (_ & H2 & _).
  exact (conj (proj1 (H1 "Episode" eq_refl eq_refl)) (H2 eq_refl)).
Defined.

(** [now_screening_keeps_order] on three sessions, the second [null]. *)
Lemma now_screening_keeps_order_witness :
  exists cards,
    snd (nowScreening (adapter JNull three_sessions) (JBool true) JUndefined)
    = Ok (JArr cards)
    /\ map (fun c => prop c "__raw") cards = [sample_session; special_session]
    /\ (List.length cards <= 3)%nat.
Proof.
  exact (now_screening_keeps_order decimal_to_string ascii_lower
           (adapter JNull three_sessions) (JBool true) JUndefined sessions_with_null
           eq_refl).
Defined.

(** [hidden_user_stays_in_raw] on the same upstream. *)
Lemma hidden_user_stays_in_raw_witness :
  exists cards,
    snd (nowScreening (adapter JNull three_sessions) (JStr "true") JUndefined)
    = Ok (JArr cards)
    /\ forall c, In c cards ->
         prop c "userId" = JUndefined
         /\ exists s, In s sessions_with_null
              /\ prop c "__raw" = s
              /\ prop (prop c "__raw") "UserId" = prop s "UserId"
              /\ prop (prop c "__raw") "User" = prop s "User".
Proof.
  exact (hidden_user_stays_in_raw decimal_to_string ascii_lower
           (adapter JNull three_sessions) (JStr "true") JUndefined sessions_with_null
           (or_intror eq_refl) eq_refl).
Defined.

(** [now_screening_arguments] with a flag of 1, which hides nothing. *)
Lemma now_screening_arguments_witness :
  exists cards,
    snd (nowScreening (adapter JNull three_sessions) (JInt 1) (JArr [JStr "lib"]))
    = Ok (JArr cards)
    /\ forall c, In c cards -> exists f, c = JObj f /\ has_key "userId" f = true.
Proof.
  assert (H1 : JInt 1 <> JBool true) by discriminate.
  assert (H2 : JInt 1 <> JStr "true") by discriminate.
  exact (proj2 (proj2 (now_screening_arguments decimal_to_string ascii_lower
                         (adapter JNull three_sessions) (JInt 1) (JArr [JStr "lib"])
                         JUndefined)) H1 H2).
Defined.

(** [now_screening_unusable_data] on an upstream that answers with text. *)
Lemma now_screening_unusable_data_witness :
  nowScreening (adapter JNull text_page) JUndefined JUndefined
  = ([sessions_request], Ok (JArr [])).
Proof.
  assert (H : forall l, JStr "<html></html>" <> JArr l) by discriminate.
  exact (now_screening_unusable_data decimal_to_string ascii_lower
           (adapter JNull text_page) JUndefined JUndefined (JStr "<html></html>")
           eq_refl (or_intror H)).
Defined.

(** [on_demand_all_or_nothing] on a list of three items, the second [null]. *)
Lemma on_demand_all_or_nothing_witness :
  onDemand (adapter JNull latest_with_null) (JInt 10)
  = ([latest_request (onDemandLimit decimal_to_string (JInt 10))], Ok (JArr [])).
Proof.
  assert (Hin : In JNull [sample_item "1"; JNull; sample_item "3"])
    by (right; left; reflexivity).
  exact (on_demand_all_or_nothing decimal_to_string ascii_lower
           (adapter JNull latest_with_null) (JInt 10)
           [sample_item "1"; JNull; sample_item "3"] JNull TypeError
           eq_refl eq_refl Hin eq_refl).
Defined.

(** [on_demand_resume_short_circuit] on an upstream with two items to
    resume. *)
Lemma on_demand_resume_short_circuit_witness :
  onDemand (adapter (JStr "u1") resume_two) (JInt 10)
  = ([resume_request "u1" (onDemandLimit decimal_to_string (JInt 10))],
     Ok (cards_of decimal_to_string ascii_lower
           (JArr [sample_item "8"; sample_item "9"])
           (onDemandLimit decimal_to_string (JInt 10)))).
Proof.
  exact (on_demand_resume_short_circuit decimal_to_string ascii_lower
           (adapter (JStr "u1") resume_two) (JInt 10) "u1"
           (JObj [("Items", JArr [sample_item "8"; sample_item "9"])])
           (sample_item "8") [sample_item "9"]
           eq_refl eq_refl eq_refl eq_refl).
Defined.

(** [on_demand_requests] for a user id with a slash in it. *)
Lemma on_demand_requests_witness :
  fst (onDemand (adapter (JStr "a/b") resume_two) (JInt 10))
  = [resume_request "a%2Fb" (onDemandLimit decimal_to_string (JInt 10))]
  /\ path (resume_request "a%2Fb" (onDemandLimit decimal_to_string (JInt 10)))
     = "/Users/a%2Fb/Items/Resume".
Proof.
  pose proof (on_demand_requests decimal_to_string ascii_lower
                (adapter (JStr "a/b") resume_two) (JInt 10)) as H. cbv zeta in H.
  destruct H as [[H _] | [(H & _) | (u & _ & Hu & [H | H] & Hp & _)]];
    try discriminate.
  injection Hu as <-. exact (conj H Hp).
Defined.

(** [items_wrapper_is_transparent] on a bare and a wrapped answer. *)
Lemma items_wrapper_is_transparent_witness :
  latest_cards decimal_to_string ascii_lower (adapter JNull latest_bare) (Fin 10)
  = cards_of decimal_to_string ascii_lower (JArr [sample_item "1"]) (Fin 10)
  /\ latest_cards decimal_to_string ascii_lower (adapter JNull latest_wrapped) (Fin 10)
     = cards_of decimal_to_string ascii_lower (JArr [sample_item "1"]) (Fin 10).
Proof.
  exact (items_wrapper_is_transparent decimal_to_string ascii_lower
           (adapter JNull latest_bare) (adapter JNull latest_wrapped) (Fin 10)
           [sample_item "1"]
           [("Items", JArr [sample_item "1"]); ("TotalRecordCount", JInt 1)]
           eq_refl eq_refl eq_refl).
Defined.

(** [on_demand_is_a_prefix] on three items with a limit of two and a half. *)
Lemma on_demand_is_a_prefix_witness :
  exists cards,
    mapM mapItem [sample_item "1"; sample_item "2"; sample_item "3"] = Ok cards
    /\ cards_of decimal_to_string ascii_lower
         (JArr [sample_item "1"; sample_item "2"; sample_item "3"]) (Fin (5 # 2))
       = JArr (firstn 2 cards)
    /\ map (fun c => prop c "__raw") (firstn 2 cards)
       = [sample_item "1"; sample_item "2"].
Proof.
  eexists. split; [reflexivity|].
  assert (Hq : 0 <= 5 # 2) by discriminate.
  pose proof (on_demand_is_a_prefix decimal_to_string ascii_lower
                [sample_item "1"; sample_item "2"; sample_item "3"] _ (5 # 2)
                eq_refl Hq) as H.
  cbv zeta in H. exact (conj (proj1 H) (proj1 (proj2 H))).
Defined.

(** [on_demand_negative_count] at a count of -1 on three items. *)
Lemma on_demand_negative_count_witness :
  exists cards,
    mapM mapItem [sample_item "1"; sample_item "2"; sample_item "3"] = Ok cards
    /\ onDemand (adapter JNull resume_down) (JInt (-1))
       = ([latest_request (num_of_Z (-1))], Ok (JArr (firstn 2 cards))).
Proof.
  eexists. split; [reflexivity|].
  assert (Hz : (-1 < 0)%Z) by reflexivity.
  exact (on_demand_negative_count decimal_to_string ascii_lower
           (adapter JNull resume_down) (-1)
           [sample_item "1"; sample_item "2"; sample_item "3"] _
           Hz eq_refl eq_refl eq_refl).
Defined.


(** [percent_within_hundred] at the session of the specification. *)
Lemma percent_within_hundred_witness :
  exists z : Z,
    prop (mapSession sample_session) "progressPercent" = JInt z /\ (0 <= z <= 100)%Z.
Proof.
  assert (Hnn : mapSession sample_session <> JNull) by discriminate.
  assert (H0 : 0 < 30000) by reflexivity.
  assert (H1 : 30000 <= 60000) by discriminate.
  exact (proj1 (percent_within_hundred decimal_to_string ascii_lower)
           sample_session _ 60000 30000 eq_refl Hnn eq_refl eq_refl H0 H1).
Defined.
